(** * Cursor store, peer directory cache and update recovery of pyrogram

    Shallow embedding of
    - [pyrogram/storage/sqlite_storage.py]: [get_input_peer], [State],
      [StateMixin] and [SQLiteStorage] (peer cache, session accessors,
      [version], [save], [create]);
    - [pyrogram/methods/utilities/recover.py]: [Recover.recover_updates].

    Python [int] is [Z].  A reading of [time.time()] is a rational number
    (the clock has a fractional part; rounding of binary floating point is
    not modelled).  A SQLite table with an [INTEGER PRIMARY KEY] is a finite
    map from the key to the remaining columns; a nullable column holding
    [None] is [option].  The sqlite3 driver's own failures (closed
    connection, missing table, integers outside 64 bits) are outside the
    model. *)

From Stdlib Require Import ZArith QArith Qabs Lia.
From stdpp Require Import gmap strings list.

Local Open Scope Z_scope.

(** ** Python runtime pieces *)

(** Exceptions raised by the modelled storage functions, one constructor
    per [raise] statement; the argument is the value formatted into the
    message. *)
Inductive exn : Type :=
| KeyError_ID_not_found (peer_id : Z)
| KeyError_Username_not_found (username : string)
| KeyError_Username_expired (username : string)
| ValueError_Invalid_peer_type (peer_type : string).

Inductive result (A : Type) : Type :=
| Return (a : A)
| Raise (e : exn).
Arguments Return {A} a.
Arguments Raise {A} e.

(** [int(x)] on a clock reading: truncation towards zero. *)
Definition int (t : Q) : Z := Z.quot (Qnum t) (Z.pos (Qden t)).

(** [x > y] on clock readings, as a boolean. *)
Definition Qgtb (x y : Q) : bool := negb (Qle_bool x y).

Module sqlite_storage.

(** *** Raw input peers built by [get_input_peer] *)
Inductive InputPeer : Type :=
| InputPeerUser (user_id access_hash : Z)
| InputPeerChat (chat_id : Z)
| InputPeerChannel (channel_id access_hash : Z).

(** *** class State *)
Record State : Type := mkState {
  id : Z;
  pts : Z;
  date : Z;
  qts : option Z;
  seq : option Z
}.

(** [State.default(id)] at clock reading [now]. *)
Definition State_default (now : Q) (id : Z) : State :=
  mkState id 1 (int now) None None.

(** *** Tables *)

(** Row of table [state], keyed by [id]. *)
Record state_row : Type := mk_state_row {
  row_pts : Z;
  row_date : Z;
  row_qts : option Z;
  row_seq : option Z
}.

(** Row of table [peers], keyed by [id]. *)
Record peer_row : Type := mk_peer_row {
  access_hash : Z;
  type : string;
  username : option string;
  phone_number : option string;
  last_update_on : Z
}.

(** The part of the database behind [self.conn] that the modelled methods
    touch. *)
Record conn : Type := mk_conn {
  state : gmap Z state_row;
  peers : gmap Z peer_row
}.

Definition set_state (f : gmap Z state_row → gmap Z state_row) (c : conn) : conn :=
  mk_conn (f (state c)) (peers c).

(** *** StateMixin *)

(** [SELECT id, pts, date, qts, seq FROM state WHERE id = ?] then
    [fetchone]; the connection is handed back as the read leaves it. *)
Definition get_state (now : Q) (id : Z) (c : conn) : State * conn :=
  match state c !! id with
  | None => (State_default now id, c)
  | Some row => (mkState id (row_pts row) (row_date row) (row_qts row) (row_seq row), c)
  end.

(** [REPLACE INTO state (id, pts, date, qts, seq) VALUES (?, ?, ?, ?, ?)];
    [qts] and [seq] default to [None] at the call sites that omit them. *)
Definition update_state (now : Q) (id pts : Z) (date : option Z)
    (qts seq : option Z) (c : conn) : conn :=
  let date := match date with None => int now | Some d => d end in
  set_state (insert id (mk_state_row pts date qts seq)) c.

(** [UPDATE state SET pts = 1 WHERE id = ?] *)
Definition reset_state (id : Z) (c : conn) : conn :=
  set_state (alter (λ row, mk_state_row 1 (row_date row) (row_qts row) (row_seq row)) id) c.

(** *** Peer lookups *)

Section peers.

(** [utils.get_channel_id], defined in [pyrogram/utils.py]. *)
Variable get_channel_id : Z → Z.

Definition get_input_peer (peer_id access_hash : Z) (peer_type : string)
    : result InputPeer :=
  if bool_decide (peer_type ∈ ["user"; "bot"]) then
    Return (InputPeerUser peer_id access_hash)
  else if bool_decide (peer_type = "group") then
    Return (InputPeerChat (- peer_id))
  else if bool_decide (peer_type ∈ ["channel"; "supergroup"]) then
    Return (InputPeerChannel (get_channel_id peer_id) access_hash)
  else
    Raise (ValueError_Invalid_peer_type peer_type).

Definition USERNAME_TTL : Z := 8 * 60 * 60.

(** [WHERE username = ?]: a [NULL] username matches nothing. *)
Definition has_username (u : string) (r : Z * peer_row) : bool :=
  bool_decide (username r.2 = Some u).

(** [ORDER BY last_update_on DESC] followed by [fetchone]: a row with the
    greatest [last_update_on].  SQLite leaves the order among equal keys
    open; here the earliest such row of the scan is kept. *)
Fixpoint first_by_last_update_on_desc (rows : list (Z * peer_row))
    : option (Z * peer_row) :=
  match rows with
  | [] => None
  | r :: rows' =>
      match first_by_last_update_on_desc rows' with
      | None => Some r
      | Some r' =>
          if last_update_on r'.2 <=? last_update_on r.2 then Some r else Some r'
      end
  end.

Definition select_by_username (u : string) (c : conn) : option (Z * peer_row) :=
  first_by_last_update_on_desc (filter (λ r, has_username u r = true) (map_to_list (peers c))).

Definition get_peer_by_id (peer_id : Z) (c : conn) : result InputPeer :=
  match peers c !! peer_id with
  | None => Raise (KeyError_ID_not_found peer_id)
  | Some r => get_input_peer peer_id (access_hash r) (type r)
  end.

Definition get_peer_by_username (now : Q) (u : string) (c : conn)
    : result InputPeer :=
  match select_by_username u c with
  | None => Raise (KeyError_Username_not_found u)
  | Some r =>
      if Qgtb (Qabs (now - inject_Z (last_update_on r.2))) (inject_Z USERNAME_TTL) then
        Raise (KeyError_Username_expired u)
      else
        get_input_peer r.1 (access_hash r.2) (type r.2)
  end.

End peers.

(** Modelled from the spec: [pyrogram/utils.py], which defines
    [get_channel_id], is not among the sources; the spec describes the
    transformed channel id as a fixed numeric offset applied to the raw id.
    This instance, with the offset of the marked channel id range, is used
    where a lookup is evaluated on concrete rows. *)
Definition offset_channel_id (peer_id : Z) : Z := -1000000000000 - peer_id.

End sqlite_storage.

(** ** Raw API objects used by the recovery loop

    Only the fields that [recover_updates] passes or reads are kept. *)
Module raw.

Module GetDifference.
Record t : Type := mk {
  pts : Z;
  date : Z;
  qts : Z;
  pts_total_limit : Z
}.
End GetDifference.

Module UpdateNewMessage.
Record t (Message : Type) : Type := mk {
  message : Message;
  pts : Z;
  pts_count : Z
}.
Arguments mk {Message} message pts pts_count.
Arguments message {Message} t.
Arguments pts {Message} t.
Arguments pts_count {Message} t.
End UpdateNewMessage.

(** [raw.types.updates.State] *)
Module updates_State.
Record t : Type := mk {
  pts : Z;
  qts : Z;
  date : Z;
  seq : Z;
  unread_count : Z
}.
End updates_State.

(** The four shapes [updates.GetDifference] answers with. *)
Inductive updates_Difference (Message User Chat : Type) : Type :=
| DifferenceEmpty (date seq : Z)
| DifferenceTooLong (pts : Z)
| Difference (new_messages : list Message) (chats : list Chat)
    (users : list User) (state : updates_State.t)
| DifferenceSlice (new_messages : list Message) (chats : list Chat)
    (users : list User) (intermediate_state : updates_State.t).
Arguments DifferenceEmpty {Message User Chat} date seq.
Arguments DifferenceTooLong {Message User Chat} pts.
Arguments Difference {Message User Chat} new_messages chats users state.
Arguments DifferenceSlice {Message User Chat} new_messages chats users intermediate_state.

End raw.

(** ** class Recover *)
Module Recover.

Import raw.

Section recover.

Variables Message User Chat : Type.
(** [u.id] and [c.id] of the objects in [diff.users] and [diff.chats]. *)
Variable User_id : User → Z.
Variable Chat_id : Chat → Z.

(** What [await self.invoke(...)] comes back with: an exception, or a
    difference object. *)
Inductive reply : Type :=
| Raised
| Returned (diff : updates_Difference Message User Chat).

(** One element of [self.dispatcher.updates_queue]. *)
Definition queue_item : Type :=
  UpdateNewMessage.t Message * gmap Z User * gmap Z Chat.

(** The calls that leave the coroutine, in program order ([log.info]
    is left out). *)
Inductive effect : Type :=
| Invoke (q : GetDifference.t)
| Log_exception
| Update_state (id pts : Z) (date qts seq : option Z)
| Put_nowait (item : queue_item).

(** Everything outside the coroutine's local variables: the storage
    behind [self.storage], the dispatcher's queue, and the record of the
    calls made so far. *)
Record world : Type := mk_world {
  storage : sqlite_storage.conn;
  updates_queue : list queue_item;
  history : list effect
}.

Record locals : Type := mk_locals {
  state : sqlite_storage.State;
  local_pts : Z;
  local_date : Z;
  local_seq : option Z;
  message_updates_counter : Z;
  other_updates_counter : Z;
  prev_pts : Z
}.

(** The [break] statement that left the loop. *)
Inductive break_at : Type :=
| break_exception
| break_DifferenceEmpty
| break_same_pts.

Inductive flow : Type :=
| Continue
| Break (b : break_at).

(** *** Calls on collaborators *)

Definition invoke (q : GetDifference.t) (w : world) : world :=
  mk_world (storage w) (updates_queue w) (history w ++ [Invoke q]).

Definition log_exception (w : world) : world :=
  mk_world (storage w) (updates_queue w) (history w ++ [Log_exception]).

(** [self.storage.update_state(id=.., pts=.., date=.., seq=..)]: [qts] is
    not passed and takes its default [None]. *)
Definition storage_update_state (now : Q) (id pts : Z) (date seq : option Z)
    (w : world) : world :=
  mk_world (sqlite_storage.update_state now id pts date None seq (storage w))
           (updates_queue w)
           (history w ++ [Update_state id pts date None seq]).

Definition put_nowait (item : queue_item) (w : world) : world :=
  mk_world (storage w) (updates_queue w ++ [item]) (history w ++ [Put_nowait item]).

(** *** Pieces of the loop body *)

(** [{u.id: u for u in diff.users}]: a later entry replaces an earlier one
    with the same id. *)
Definition dict_by_id {A : Type} (key : A → Z) (xs : list A) : gmap Z A :=
  foldl (λ d x, <[key x := x]> d) ∅ xs.

Definition set_working (p d : Z) (s : option Z) (l : locals) : locals :=
  mk_locals (state l) p d s (message_updates_counter l)
            (other_updates_counter l) (prev_pts l).

Definition set_prev_pts (p : Z) (l : locals) : locals :=
  mk_locals (state l) (local_pts l) (local_date l) (local_seq l)
            (message_updates_counter l) (other_updates_counter l) p.

Definition count_message (l : locals) : locals :=
  mk_locals (state l) (local_pts l) (local_date l) (local_seq l)
            (message_updates_counter l + 1) (other_updates_counter l) (prev_pts l).

(** The query built at the head of the loop. *)
Definition query (l : locals) : GetDifference.t :=
  GetDifference.mk (local_pts l) (local_date l) 0 1000000.

(** [for message in diff.new_messages: ...] *)
Definition put_new_messages (users : gmap Z User) (chats : gmap Z Chat)
    (new_messages : list Message) (w : world) (l : locals) : world * locals :=
  foldl (λ '(w, l) message,
           (put_nowait (UpdateNewMessage.mk message (local_pts l) (-1), users, chats) w,
            count_message l))
        (w, l) new_messages.

(** The tail of the body shared by [Difference] and [DifferenceSlice]. *)
Definition forward (new_messages : list Message) (chats : list Chat)
    (users : list User) (w : world) (l : locals) : world * locals * flow :=
  let users := dict_by_id User_id users in
  let chats := dict_by_id Chat_id chats in
  let '(w, l) := put_new_messages users chats new_messages w l in
  (w, l, Continue).

(** One pass through the body of [while True], from the point where
    [self.invoke] has answered with [r]. *)
Definition body (now : Q) (r : reply) (w : world) (l : locals)
    : world * locals * flow :=
  match r with
  | Raised => (log_exception w, l, Break break_exception)
  | Returned (DifferenceEmpty date seq) =>
      (storage_update_state now (sqlite_storage.id (state l)) (local_pts l)
         (Some date) (Some seq) w,
       l, Break break_DifferenceEmpty)
  | Returned (DifferenceTooLong pts) =>
      (storage_update_state now (sqlite_storage.id (state l)) pts
         (Some (local_date l)) (local_seq l) w,
       l, Continue)
  | Returned (Difference new_messages chats users st) =>
      let l := set_working (updates_State.pts st) (updates_State.date st)
                 (Some (updates_State.seq st)) l in
      forward new_messages chats users w l
  | Returned (DifferenceSlice new_messages chats users st) =>
      let l := set_working (updates_State.pts st) (updates_State.date st)
                 (Some (updates_State.seq st)) l in
      if prev_pts l =? local_pts l then (w, l, Break break_same_pts)
      else forward new_messages chats users w (set_prev_pts (local_pts l) l)
  end.

(** The assignments between [get_state] and the loop. *)
Definition entry_locals (st : sqlite_storage.State) : locals :=
  mk_locals st (sqlite_storage.pts st) (sqlite_storage.date st)
    (sqlite_storage.seq st) 0 0 0.

(** [while True]: every pass sends the query, then runs the body on the
    next scripted reply.  When the script is used up the coroutine is left
    suspended on [self.invoke], which is the result [None]. *)
Fixpoint while_True (now : Q) (script : list reply) (w : world) (l : locals)
    : world * locals * option break_at :=
  let w := invoke (query l) w in
  match script with
  | [] => (w, l, None)
  | r :: script' =>
      match body now r w l with
      | (w, l, Continue) => while_True now script' w l
      | (w, l, Break b) => (w, l, Some b)
      end
  end.

(** [recover_updates] against a server that answers with [script]; [now]
    is the clock reading handed to the storage calls. *)
Definition recover_updates (now : Q) (script : list reply) (w : world)
    : world * locals * option break_at :=
  let '(st, c) := sqlite_storage.get_state now 0 (storage w) in
  let w := mk_world c (updates_queue w) (history w) in
  while_True now script w (entry_locals st).

(** *** Observations on histories *)

Definition is_Update_state (e : effect) : bool :=
  match e with
  | Update_state _ _ _ _ _ => true
  | _ => false
  end.

(** The queue items one reply gives rise to, for working [pts] value [p]. *)
Definition items_of (p : Z) (users : list User) (chats : list Chat)
    (new_messages : list Message) : list queue_item :=
  (λ m, (UpdateNewMessage.mk m p (-1), dict_by_id User_id users, dict_by_id Chat_id chats))
    <$> new_messages.

(** A cursor write that goes to scope [i] and carries no [qts]. *)
Definition writes_without_qts (i : Z) (e : effect) : Prop :=
  match e with
  | Update_state i' _ _ q _ => i' = i ∧ q = None
  | _ => True
  end.

(** The row of scope [i] after the effects [new]: without [qts] once a
    write happened, the database untouched otherwise. *)
Definition stored_after (i : Z) (new : list effect)
    (c c' : sqlite_storage.conn) : Prop :=
  if existsb is_Update_state new
  then ∃ row, sqlite_storage.state c' !! i = Some row ∧ sqlite_storage.row_qts row = None
  else c' = c.

End recover.

Arguments Raised {Message User Chat}.
Arguments Returned {Message User Chat} diff.
Arguments Invoke {Message User Chat} q.
Arguments Log_exception {Message User Chat}.
Arguments Update_state {Message User Chat} id pts date qts seq.
Arguments Put_nowait {Message User Chat} item.
Arguments mk_world {Message User Chat} storage updates_queue history.
Arguments storage {Message User Chat} w.
Arguments updates_queue {Message User Chat} w.
Arguments history {Message User Chat} w.
Arguments invoke {Message User Chat} q w.
Arguments log_exception {Message User Chat} w.
Arguments storage_update_state {Message User Chat} now id pts date seq w.
Arguments put_nowait {Message User Chat} item w.
Arguments put_new_messages {Message User Chat} users chats new_messages w l.
Arguments forward {Message User Chat} User_id Chat_id new_messages chats users w l.
Arguments body {Message User Chat} User_id Chat_id now r w l.
Arguments while_True {Message User Chat} User_id Chat_id now script w l.
Arguments recover_updates {Message User Chat} User_id Chat_id now script w.
Arguments is_Update_state {Message User Chat} e.
Arguments items_of {Message User Chat} User_id Chat_id p users chats new_messages.
Arguments writes_without_qts {Message User Chat} i e.
Arguments stored_after {Message User Chat} i new c c'.

End Recover.

(** ** The rest of [class SQLiteStorage]

    [update_peers], [get_peer_by_phone_number], the session accessors
    with [_get], [_set] and [_accessor], [version], [save] and [create]. *)
Module SQLiteStorage.

Import sqlite_storage.

(** Exceptions of the functions below: those of the lookups above, the
    [KeyError] of the phone lookup, and the [TypeError] of subscripting
    the [None] that [fetchone] returns on an empty table. *)
Inductive error : Type :=
| Lookup (e : exn)
| KeyError_Phone_number_not_found (phone_number : string)
| TypeError_NoneType_not_subscriptable.

Inductive outcome (A : Type) : Type :=
| Ok (a : A)
| Fail (e : error).
Arguments Ok {A} a.
Arguments Fail {A} e.

Definition lift {A : Type} (r : result A) : outcome A :=
  match r with
  | Return a => Ok a
  | Raise e => Fail (Lookup e)
  end.

(** *** update_peers *)

(** One tuple [(id, access_hash, type, username, phone_number)] of the
    list handed to [update_peers]; a missing username or phone number is
    [None]. *)
Record peer_tuple : Type := mk_peer_tuple {
  t_id : Z;
  t_access_hash : Z;
  t_type : string;
  t_username : option string;
  t_phone_number : option string
}.

(** [CAST(STRFTIME('%s', 'now') AS INTEGER)], the column default of
    [last_update_on]: the whole seconds of the statement's clock reading. *)
Definition strftime_s (now : Q) : Z := Z.div (Qnum now) (Z.pos (Qden now)).

Definition set_peers (f : gmap Z peer_row → gmap Z peer_row) (c : conn) : conn :=
  mk_conn (state c) (f (peers c)).

(** One [REPLACE INTO peers (id, access_hash, type, username,
    phone_number) VALUES (?, ?, ?, ?, ?)], run at clock reading [now]: the
    row with this id, if any, goes, and the new row takes the default
    [last_update_on].  The [AFTER UPDATE] trigger is not involved: no
    modelled statement is an [UPDATE] of [peers]. *)
Definition replace_into_peers (now : Q) (p : peer_tuple) (c : conn) : conn :=
  set_peers (insert (t_id p)
               (mk_peer_row (t_access_hash p) (t_type p) (t_username p)
                  (t_phone_number p) (strftime_s now))) c.

(** [executemany]: one statement per tuple, in list order, each at its
    own clock reading. *)
Definition update_peers (batch : list (Q * peer_tuple)) (c : conn) : conn :=
  foldl (λ c tp, replace_into_peers tp.1 tp.2 c) c batch.

(** *** get_peer_by_phone_number *)

(** [WHERE phone_number = ?]: a [NULL] phone number matches nothing. *)
Definition has_phone_number (ph : string) (r : Z * peer_row) : bool :=
  bool_decide (phone_number r.2 = Some ph).

(** [fetchone] without [ORDER BY]: some matching row; here the first of
    the scan. *)
Definition select_by_phone_number (ph : string) (c : conn) : option (Z * peer_row) :=
  head (filter (λ r, has_phone_number ph r = true) (map_to_list (peers c))).

Definition get_peer_by_phone_number (get_channel_id : Z → Z) (ph : string)
    (c : conn) : outcome InputPeer :=
  match select_by_phone_number ph c with
  | None => Fail (KeyError_Phone_number_not_found ph)
  | Some r => lift (get_input_peer get_channel_id r.1 (access_hash r.2) (type r.2))
  end.

(** *** Table sessions and the accessors *)

(** The row of table [sessions].  [dc_id] is the primary key and [date]
    is [NOT NULL]; the other columns may hold [NULL]. *)
Record session : Type := mk_session {
  s_dc_id : Z;
  s_api_id : option Z;
  s_test_mode : option Z;
  s_auth_key : option (list Byte.byte);
  s_date : Z;
  s_user_id : option Z;
  s_is_bot : option Z
}.

(** The database: the tables of [conn], table [sessions] and table
    [version].  [create] inserts one row into each of the last two and no
    other modelled statement inserts into them, so each holds one row or
    none. *)
Record database : Type := mk_database {
  tables : conn;
  sessions : option session;
  version_number : option Z
}.

(** [inspect.stack()[2].function]: the name of the accessor method that
    called [_accessor], which is the name of a column. *)
Inductive column : Type :=
| col_dc_id | col_api_id | col_test_mode | col_auth_key
| col_date | col_user_id | col_is_bot.

(** What a column holds when it is not [NULL], with the arguments the
    accessors' annotations allow: an integer ([bool] is stored as 0 or 1),
    or bytes for [auth_key]. *)
Definition column_type (a : column) : Type :=
  match a with
  | col_auth_key => list Byte.byte
  | _ => Z
  end.

(** Column [a] of a row, [None] for [NULL]. *)
Definition load (a : column) (r : session) : option (column_type a) :=
  match a with
  | col_dc_id => Some (s_dc_id r)
  | col_api_id => s_api_id r
  | col_test_mode => s_test_mode r
  | col_auth_key => s_auth_key r
  | col_date => Some (s_date r)
  | col_user_id => s_user_id r
  | col_is_bot => s_is_bot r
  end.

(** [SET a = v] on a row. *)
Definition store (a : column) : column_type a → session → session :=
  match a with
  | col_dc_id => λ v r,
      mk_session v (s_api_id r) (s_test_mode r) (s_auth_key r) (s_date r) (s_user_id r) (s_is_bot r)
  | col_api_id => λ v r,
      mk_session (s_dc_id r) (Some v) (s_test_mode r) (s_auth_key r) (s_date r) (s_user_id r) (s_is_bot r)
  | col_test_mode => λ v r,
      mk_session (s_dc_id r) (s_api_id r) (Some v) (s_auth_key r) (s_date r) (s_user_id r) (s_is_bot r)
  | col_auth_key => λ v r,
      mk_session (s_dc_id r) (s_api_id r) (s_test_mode r) (Some v) (s_date r) (s_user_id r) (s_is_bot r)
  | col_date => λ v r,
      mk_session (s_dc_id r) (s_api_id r) (s_test_mode r) (s_auth_key r) v (s_user_id r) (s_is_bot r)
  | col_user_id => λ v r,
      mk_session (s_dc_id r) (s_api_id r) (s_test_mode r) (s_auth_key r) (s_date r) (Some v) (s_is_bot r)
  | col_is_bot => λ v r,
      mk_session (s_dc_id r) (s_api_id r) (s_test_mode r) (s_auth_key r) (s_date r) (s_user_id r) (Some v)
  end.

(** [SELECT {attr} FROM sessions], [fetchone()[0]]. *)
Definition _get (attr : column) (db : database) : outcome (option (column_type attr)) :=
  match sessions db with
  | None => Fail TypeError_NoneType_not_subscriptable
  | Some r => Ok (load attr r)
  end.

(** [UPDATE sessions SET {attr} = ?] *)
Definition _set (attr : column) (value : column_type attr) (db : database) : database :=
  mk_database (tables db) (store attr value <$> sessions db) (version_number db).

(** [_accessor]: the default argument [object] is [None] here; the
    result of the write is Python's [None]. *)
Definition _accessor (attr : column) (value : option (column_type attr))
    (db : database) : outcome (option (column_type attr)) * database :=
  match value with
  | None => (_get attr db, db)
  | Some v => (Ok None, _set attr v db)
  end.

Definition dc_id (value : option Z) := _accessor col_dc_id value.
Definition api_id (value : option Z) := _accessor col_api_id value.
Definition test_mode (value : option bool) := _accessor col_test_mode (Z.b2z <$> value).
Definition auth_key (value : option (list Byte.byte)) := _accessor col_auth_key value.
Definition date (value : option Z) := _accessor col_date value.
Definition user_id (value : option Z) := _accessor col_user_id value.
Definition is_bot (value : option bool) := _accessor col_is_bot (Z.b2z <$> value).

(** [version]: [SELECT number FROM version] or [UPDATE version SET
    number = ?]. *)
Definition version (value : option Z) (db : database)
    : outcome (option Z) * database :=
  match value with
  | None =>
      (match version_number db with
       | None => Fail TypeError_NoneType_not_subscriptable
       | Some n => Ok (Some n)
       end, db)
  | Some v =>
      (Ok None, mk_database (tables db) (sessions db) ((λ _, v) <$> version_number db))
  end.

(** [save]: [await self.date(int(time.time()))], then the commit. *)
Definition save (now : Q) (db : database) : database :=
  (date (Some (int now)) db).2.

Definition VERSION : Z := 3.

(** [create] on a connection to an empty database file: the schema with
    its empty tables, the version row, the one session row, and the empty
    table [state]. *)
Definition create : database :=
  mk_database (mk_conn ∅ ∅)
    (Some (mk_session 2 None None None 0 None None))
    (Some VERSION).

End SQLiteStorage.

(** ** Reading a script of replies *)
Module Script.

Import raw Recover.

Section script.

Context {Message User Chat : Type}.

(** The state a reply carries when it is a [Difference] or a
    [DifferenceSlice]. *)
Definition reply_state (r : reply Message User Chat) : option updates_State.t :=
  match r with
  | Returned (Difference _ _ _ st) => Some st
  | Returned (DifferenceSlice _ _ _ st) => Some st
  | _ => None
  end.

(** The intermediate state of a [DifferenceSlice] reply. *)
Definition slice_state (r : reply Message User Chat) : option updates_State.t :=
  match r with
  | Returned (DifferenceSlice _ _ _ st) => Some st
  | _ => None
  end.

(** A server that answers [DifferenceTooLong] every time, with the given
    [pts] values. *)
Definition too_long_replies (ps : list Z) : list (reply Message User Chat) :=
  (λ p, Returned (DifferenceTooLong p)) <$> ps.

(** What one [DifferenceTooLong(pts=p)] pass adds to the history when the
    working cursor is [(p0, d0, s0)] and the scope is [i]. *)
Definition too_long_calls (i p0 d0 : Z) (s0 : option Z) (p : Z)
    : list (effect Message User Chat) :=
  [Invoke (GetDifference.mk p0 d0 0 1000000);
   Update_state i p (Some d0) None s0].

End script.

End Script.

(** ** Sample data *)
Module Samples.

Import sqlite_storage raw Recover.

(** The clock reading the samples are looked at: half a second past
    1700000000. *)
Definition noon : Q := 3400000001 # 2.

(** Two rows named alice (one an hour old, one nine hours old), a stale
    group, a row of a type the client does not know, and a row stamped
    nine hours ahead of the clock. *)
Definition directory : conn :=
  mk_conn ∅
    (<[10 := mk_peer_row 111 "user" (Some "alice") None 1699996400]>
     (<[11 := mk_peer_row 222 "channel" (Some "alice") None 1699967600]>
      (<[12 := mk_peer_row 333 "group" (Some "bob") (Some "391234") 1699967600]>
       (<[13 := mk_peer_row 444 "secret" (Some "carol") None 1700000000]>
        (<[14 := mk_peer_row 555 "bot" (Some "erin") None 1700032400]>
         (<[15 := mk_peer_row 666 "supergroup" None None 1700000000]> ∅)))))).

(** A database whose account-wide cursor carries a [qts]. *)
Definition cursors : conn :=
  mk_conn (<[0 := mk_state_row 40 1700000000 (Some 7) (Some 3)]>
           (<[5 := mk_state_row 9 1600000000 None None]> ∅)) ∅.

(** Messages, users and chats are numbers in the samples, and are their
    own ids. *)
Definition start : world Z Z Z := mk_world cursors [] [].

Definition too_long_then_empty : list (reply Z Z Z) :=
  [Returned (DifferenceTooLong 500); Returned (DifferenceEmpty 99 3)].

(** A complete difference that moves the working cursor to
    [(10, 1700000100, 4)] and brings two messages. *)
Definition full_10 : list (reply Z Z Z) :=
  [Returned (Difference [1; 2] [] [7] (updates_State.mk 10 0 1700000100 4 0))].

End Samples.

(** ** More sample data *)
Module More_samples.

Import sqlite_storage SQLiteStorage raw Recover.

(** A new peer named frank, and the row of bob written again without a
    username. *)
Definition frank : peer_tuple := mk_peer_tuple 20 777 "user" (Some "frank") None.
Definition bob_unnamed : peer_tuple := mk_peer_tuple 12 333 "group" None (Some "391234").

(** A slice that moves the working cursor to [(5, 1700000100, 4)]. *)
Definition slice_5 : list (reply Z Z Z) :=
  [Returned (DifferenceSlice [1; 2] [] [7] (updates_State.mk 5 0 1700000100 4 0))].

(** The state some later reply carries. *)
Definition state_8 : updates_State.t := updates_State.mk 8 0 1700000200 6 0.

End More_samples.

(** * Properties *)

(** ** Clock arithmetic *)

Lemma Qgtb_true (x y : Q) : Qgtb x y = true ↔ (y < x)%Q.
Proof.
  unfold Qgtb. rewrite negb_true_iff, <- not_true_iff_false, Qle_bool_iff.
  split; [apply Qnot_le_lt | apply Qlt_not_le].
Qed.

Lemma Qgtb_false (x y : Q) : Qgtb x y = false ↔ (x <= y)%Q.
Proof. unfold Qgtb. rewrite negb_false_iff. apply Qle_bool_iff. Qed.

(** [int(t)] is less than one second away from [t], on either side. *)
Lemma int_within_one (t : Q) : (Qabs (t - inject_Z (int t)) < 1)%Q.
Proof.
  destruct t as [n d]. unfold int, Qlt, Qabs, Qminus, Qplus, Qopp, inject_Z.
  cbn [Qnum Qden].
  assert (Hd : 0 < Z.pos d) by lia.
  pose proof (Z.quot_rem n (Z.pos d) ltac:(lia)) as Hqr.
  pose proof (Z.rem_bound_abs n (Z.pos d) ltac:(lia)) as Hb.
  replace (n * 1 + - (n ÷ Z.pos d) * Z.pos d) with (Z.rem n (Z.pos d)) by lia.
  rewrite Pos.mul_1_r. lia.
Qed.

(** ** Cursor store *)
Module Storage_facts.

Import sqlite_storage.

Lemma conn_eta (c : conn) : mk_conn (state c) (peers c) = c.
Proof. by destruct c. Qed.

(** An explicit [date] makes [update_state] independent of the clock. *)
Lemma update_state_explicit_date now now' id pts d qts seq c :
  update_state now id pts (Some d) qts seq c
  = update_state now' id pts (Some d) qts seq c.
Proof. reflexivity. Qed.

Lemma lookup_update_state now id pts d qts seq c :
  state (update_state now id pts (Some d) qts seq c) !! id
  = Some (mk_state_row pts d qts seq).
Proof. unfold update_state, set_state. cbn. apply lookup_insert_eq. Qed.

(** C5: on a scope without a stored row, [get_state] returns a value (it
    is a total function), namely the default cursor built at the call:
    [pts = 1], [qts] and [seq] unset, and a [date] less than one second
    away from the clock reading; the connection comes back unchanged, so
    the default is not stored and a later read rebuilds it with the
    later clock reading. *)
Theorem get_state_absent_default (now later : Q) (i : Z) (c : conn) :
  state c !! i = None →
  ∃ s c', get_state now i c = (s, c')
    ∧ s = mkState i 1 (int now) None None
    ∧ (Qabs (now - inject_Z (date s)) < 1)%Q
    ∧ c' = c
    ∧ state c' !! i = None
    ∧ (get_state later i c').1 = mkState i 1 (int later) None None.
Proof.
  intros Habs. exists (State_default now i), c.
  unfold get_state. rewrite Habs. repeat split; try done.
  cbn. apply int_within_one.
Qed.

Lemma get_state_absent_default_witness :
  ∃ s c', get_state (17 # 10) 0 (mk_conn ∅ ∅) = (s, c')
    ∧ s = mkState 0 1 (int (17 # 10)) None None
    ∧ (Qabs ((17 # 10) - inject_Z (date s)) < 1)%Q
    ∧ c' = mk_conn ∅ ∅
    ∧ state c' !! 0 = None
    ∧ (get_state (29 # 10) 0 c').1 = mkState 0 1 (int (29 # 10)) None None.
Proof. apply (get_state_absent_default (17 # 10) (29 # 10) 0 (mk_conn ∅ ∅)). reflexivity. Defined.

(** C6: on a scope with a stored row, [reset_state] stores the same row
    with [pts] replaced by 1 and [date], [qts], [seq] as they were, leaves
    every other row and the peers alone, and a second reset changes
    nothing more. *)
Theorem reset_state_only_pts (now : Q) (i : Z) (c : conn) (row : state_row) :
  state c !! i = Some row →
  state (reset_state i c) !! i
    = Some (mk_state_row 1 (row_date row) (row_qts row) (row_seq row))
  ∧ (get_state now i (reset_state i c)).1
    = mkState i 1 (row_date row) (row_qts row) (row_seq row)
  ∧ (∀ j, j ≠ i → state (reset_state i c) !! j = state c !! j)
  ∧ peers (reset_state i c) = peers c
  ∧ reset_state i (reset_state i c) = reset_state i c.
Proof.
  intros Hrow.
  assert (Hl : state (reset_state i c) !! i
               = Some (mk_state_row 1 (row_date row) (row_qts row) (row_seq row))).
  { unfold reset_state, set_state; cbn. by rewrite lookup_alter_eq, Hrow. }
  split; [exact Hl|]. split.
  { unfold get_state. by rewrite Hl. }
  split.
  { intros j Hj. unfold reset_state, set_state; cbn. by rewrite lookup_alter_ne. }
  split; [done|].
  unfold reset_state, set_state; cbn. f_equal.
  rewrite alter_alter_eq. apply alter_ext. by intros [] _.
Qed.

Lemma reset_state_only_pts_witness :
  let c := mk_conn {[ 0 := mk_state_row 40 1700000000 (Some 7) (Some 3) ]} ∅ in
  state (reset_state 0 c) !! 0 = Some (mk_state_row 1 1700000000 (Some 7) (Some 3))
  ∧ reset_state 0 (reset_state 0 c) = reset_state 0 c.
Proof.
  intros c.
  pose proof (reset_state_only_pts 0 0 c (mk_state_row 40 1700000000 (Some 7) (Some 3))
                ltac:(reflexivity)) as (H1 & _ & _ & _ & H5).
  exact (conj H1 H5).
Defined.

Lemma read_after_write (now later : Q) (i p d : Z) (q s : option Z) (c : conn) :
  get_state later i (update_state now i p (Some d) q s c)
  = (mkState i p d q s, update_state now i p (Some d) q s c).
Proof. unfold get_state. by rewrite lookup_update_state. Qed.

(** C7: after [update_state] with an explicit [date], [get_state] on the
    same scope returns exactly the written [pts], [date], [qts], [seq],
    whatever the scope held before and whenever the read happens. *)
Theorem update_state_get_state (now later : Q) (i p d : Z) (q s : option Z) (c : conn) :
  (get_state later i (update_state now i p (Some d) q s c)).1 = mkState i p d q s.
Proof. by rewrite read_after_write. Qed.

(** C10: on a scope without a stored row, [reset_state] leaves the
    database as it was (no row appears), and a following [get_state]
    returns the default cursor built from its own clock reading. *)
Theorem reset_state_absent (later : Q) (i : Z) (c : conn) :
  state c !! i = None →
  reset_state i c = c
  ∧ state (reset_state i c) !! i = None
  ∧ get_state later i (reset_state i c) = (mkState i 1 (int later) None None, c).
Proof.
  intros Habs.
  assert (Hid : reset_state i c = c).
  { unfold reset_state, set_state. rewrite alter_id; [apply conn_eta|].
    intros x Hx. congruence. }
  rewrite Hid. repeat split; try done.
  unfold get_state. by rewrite Habs.
Qed.

Lemma reset_state_absent_witness :
  let c := mk_conn {[ 5 := mk_state_row 40 1700000000 None (Some 3) ]} ∅ in
  reset_state 0 c = c
  ∧ state (reset_state 0 c) !! 0 = None
  ∧ get_state (5 # 2) 0 (reset_state 0 c) = (mkState 0 1 2 None None, c).
Proof.
  intros c. apply (reset_state_absent (5 # 2) 0 c). reflexivity.
Defined.

End Storage_facts.

(** ** Peer directory cache *)
Module Peers_facts.

Import sqlite_storage.

Section with_channel_id.

Variable get_channel_id : Z → Z.

(** C8: the input peer built from a stored row is fixed by the row's
    [type]: user and bot give [InputPeerUser] with the id and the access
    hash, group gives [InputPeerChat] with the negated id alone, channel
    and supergroup give [InputPeerChannel] with the transformed id and the
    access hash, and every other type raises the invalid-type error. *)
Theorem get_input_peer_by_type (peer_id hash : Z) (peer_type : string) :
  (peer_type = "user" ∨ peer_type = "bot" →
     get_input_peer get_channel_id peer_id hash peer_type
     = Return (InputPeerUser peer_id hash))
  ∧ (peer_type = "group" →
     get_input_peer get_channel_id peer_id hash peer_type
     = Return (InputPeerChat (- peer_id)))
  ∧ (peer_type = "channel" ∨ peer_type = "supergroup" →
     get_input_peer get_channel_id peer_id hash peer_type
     = Return (InputPeerChannel (get_channel_id peer_id) hash))
  ∧ (peer_type ∉ ["user"; "bot"; "group"; "channel"; "supergroup"] →
     get_input_peer get_channel_id peer_id hash peer_type
     = Raise (ValueError_Invalid_peer_type peer_type)).
Proof.
  repeat split.
  - by intros [-> | ->].
  - by intros ->.
  - by intros [-> | ->].
  - intros Hnot. unfold get_input_peer.
    rewrite !bool_decide_eq_false_2; [done | | |];
      intros Hin; apply Hnot; clear Hnot;
      repeat match type of Hin with
             | _ ∈ _ :: _ => apply elem_of_cons in Hin as [Hin | Hin]
             | _ ∈ [] => by apply elem_of_nil in Hin
             end;
      subst; repeat constructor.
Qed.

(** *** The freshest row of a scan *)

Lemma first_by_last_update_on_desc_None rows :
  first_by_last_update_on_desc rows = None ↔ rows = [].
Proof.
  destruct rows as [|r rows]; cbn; [done|].
  split; [|done].
  destruct (first_by_last_update_on_desc rows); [case_match|]; done.
Qed.

Lemma first_by_last_update_on_desc_Some rows r :
  first_by_last_update_on_desc rows = Some r →
  r ∈ rows ∧ ∀ r', r' ∈ rows → last_update_on r'.2 ≤ last_update_on r.2.
Proof.
  revert r. induction rows as [|x rows IH]; intros r; cbn; [done|].
  destruct (first_by_last_update_on_desc rows) as [y|] eqn:Hrec.
  - destruct (IH y eq_refl) as [Hy Hmax].
    destruct (Z.leb_spec (last_update_on y.2) (last_update_on x.2)) as [Hle|Hlt];
      intros [= <-]; (split; [by auto using list_elem_of_here, list_elem_of_further|]);
      intros r' [->|Hr']%elem_of_cons; try lia; specialize (Hmax r' Hr'); lia.
  - apply first_by_last_update_on_desc_None in Hrec as ->.
    intros [= <-]. split; [apply list_elem_of_here|].
    intros r' [->|Hr']%elem_of_cons; [lia | by apply elem_of_nil in Hr'].
Qed.

Lemma elem_of_username_scan (u : string) (c : conn) (r : Z * peer_row) :
  r ∈ filter (λ r, has_username u r = true) (map_to_list (peers c))
  ↔ peers c !! r.1 = Some r.2 ∧ username r.2 = Some u.
Proof.
  rewrite list_elem_of_filter. destruct r as [i r]. rewrite elem_of_map_to_list.
  unfold has_username. rewrite bool_decide_eq_true. cbn. tauto.
Qed.

Lemma select_by_username_None (u : string) (c : conn) :
  select_by_username u c = None
  ↔ ∀ i r, peers c !! i = Some r → username r ≠ Some u.
Proof.
  unfold select_by_username. rewrite first_by_last_update_on_desc_None. split.
  - intros Hnil i r Hi Hu.
    assert (Hin : (i, r) ∈ filter (λ r, has_username u r = true) (map_to_list (peers c)))
      by by apply elem_of_username_scan.
    rewrite Hnil in Hin. by apply elem_of_nil in Hin.
  - intros Hno.
    destruct (filter _ _) as [|[i r] rows] eqn:Hf; [done|].
    assert (Hin : (i, r) ∈ filter (λ r, has_username u r = true) (map_to_list (peers c)))
      by (rewrite Hf; apply list_elem_of_here).
    apply elem_of_username_scan in Hin as [Hi Hu]. by destruct (Hno i r Hi).
Qed.

Lemma select_by_username_Some (u : string) (c : conn) (r : Z * peer_row) :
  select_by_username u c = Some r →
  peers c !! r.1 = Some r.2 ∧ username r.2 = Some u
  ∧ ∀ i' r', peers c !! i' = Some r' → username r' = Some u →
             last_update_on r' ≤ last_update_on r.2.
Proof.
  intros [Hin Hmax]%first_by_last_update_on_desc_Some.
  apply elem_of_username_scan in Hin as [Hi Hu]. repeat split; [done..|].
  intros i' r' Hi' Hu'. apply (Hmax (i', r')). by apply elem_of_username_scan.
Qed.

(** C4: [get_peer_by_username] raises the not-found error when no stored
    row carries the username.  Otherwise it settles on a stored row with
    that username whose [last_update_on] is greatest among such rows;
    it raises the expired error when the clock reading and that row's
    [last_update_on] are more than [8 * 60 * 60] seconds apart, whichever
    of the two is the later one, and in the remaining case it answers
    with [get_input_peer] of the row's id, access hash and type. *)
Theorem get_peer_by_username_freshest (now : Q) (u : string) (c : conn) :
  USERNAME_TTL = 28800
  ∧ ((∀ i r, peers c !! i = Some r → username r ≠ Some u) →
     get_peer_by_username get_channel_id now u c = Raise (KeyError_Username_not_found u))
  ∧ (∀ i0 r0, peers c !! i0 = Some r0 → username r0 = Some u →
     ∃ i r,
       peers c !! i = Some r ∧ username r = Some u
       ∧ (∀ i' r', peers c !! i' = Some r' → username r' = Some u →
                   last_update_on r' ≤ last_update_on r)
       ∧ ((inject_Z USERNAME_TTL < Qabs (now - inject_Z (last_update_on r)))%Q →
          get_peer_by_username get_channel_id now u c = Raise (KeyError_Username_expired u))
       ∧ ((Qabs (now - inject_Z (last_update_on r)) <= inject_Z USERNAME_TTL)%Q →
          get_peer_by_username get_channel_id now u c
          = get_input_peer get_channel_id i (access_hash r) (type r))).
Proof.
  split; [reflexivity|]. split.
  - intros Hno%select_by_username_None. unfold get_peer_by_username. by rewrite Hno.
  - intros i0 r0 Hi0 Hu0. unfold get_peer_by_username.
    destruct (select_by_username u c) as [[i r]|] eqn:Hsel.
    + apply select_by_username_Some in Hsel as (Hi & Hu & Hmax). cbn in *.
      exists i, r. repeat split; [done..| |].
      * intros Hgt%Qgtb_true. by rewrite Hgt.
      * intros Hle%Qgtb_false. by rewrite Hle.
    + rewrite select_by_username_None in Hsel. by destruct (Hsel i0 r0 Hi0).
Qed.

End with_channel_id.

End Peers_facts.

(** ** Recovery loop *)
Module Recover_facts.

Import raw Recover.

Section with_objects.

Context {Message User Chat : Type}.
Variable User_id : User → Z.
Variable Chat_id : Chat → Z.

Local Abbreviation world := (world Message User Chat).
Local Abbreviation reply := (reply Message User Chat).
Local Abbreviation effect := (effect Message User Chat).

Lemma world_eta (w : world) : mk_world (storage w) (updates_queue w) (history w) = w.
Proof. by destruct w. Qed.

(** [get_state] hands the connection back as it got it. *)
Lemma get_state_conn now i c :
  sqlite_storage.get_state now i c = ((sqlite_storage.get_state now i c).1, c).
Proof. unfold sqlite_storage.get_state. by destruct (_ !! _). Qed.

Lemma recover_updates_enter now script (w : world) :
  recover_updates User_id Chat_id now script w
  = while_True User_id Chat_id now script w
      (entry_locals (sqlite_storage.get_state now 0 (storage w)).1).
Proof.
  unfold recover_updates. rewrite get_state_conn. cbn [fst snd].
  by rewrite world_eta.
Qed.

Lemma get_state_id now i c :
  sqlite_storage.id (sqlite_storage.get_state now i c).1 = i.
Proof. unfold sqlite_storage.get_state. by destruct (_ !! _). Qed.

(** The [for] loop over [new_messages], in closed form. *)
Lemma put_new_messages_eq users chats (new_messages : list Message) (w : world) l :
  let items := (λ m, (UpdateNewMessage.mk m (local_pts l) (-1), users, chats))
                 <$> new_messages in
  put_new_messages users chats new_messages w l
  = (mk_world (storage w) (updates_queue w ++ items)
       (history w ++ (Put_nowait <$> items)),
     mk_locals (state l) (local_pts l) (local_date l) (local_seq l)
       (message_updates_counter l + Z.of_nat (length new_messages))
       (other_updates_counter l) (prev_pts l)).
Proof.
  unfold put_new_messages.
  revert w l. induction new_messages as [|m ms IH]; intros w l; cbn [foldl fmap list_fmap length].
  - destruct w, l; cbn. by rewrite !app_nil_r, Z.add_0_r.
  - rewrite IH. unfold put_nowait, count_message; cbn.
    rewrite <- !app_assoc. cbn. do 2 f_equal. lia.
Qed.

Lemma forward_eq new_messages chats users (w : world) l :
  let items := items_of User_id Chat_id (local_pts l) users chats new_messages in
  forward User_id Chat_id new_messages chats users w l
  = (mk_world (storage w) (updates_queue w ++ items)
       (history w ++ (Put_nowait <$> items)),
     mk_locals (state l) (local_pts l) (local_date l) (local_seq l)
       (message_updates_counter l + Z.of_nat (length new_messages))
       (other_updates_counter l) (prev_pts l),
     Continue).
Proof. unfold forward. by rewrite put_new_messages_eq. Qed.

(** *** What one pass and a whole run add to the history *)

Lemma existsb_Put_nowait (items : list (queue_item Message User Chat)) :
  existsb is_Update_state (Put_nowait <$> items) = false.
Proof. by induction items. Qed.

Lemma Forall_Put_nowait i (items : list (queue_item Message User Chat)) :
  Forall (writes_without_qts i) (Put_nowait <$> items).
Proof. apply Forall_fmap, Forall_forall. by intros. Qed.

Lemma body_effects now (r : reply) (w : world) l w1 l1 f :
  body User_id Chat_id now r w l = (w1, l1, f) →
  state l1 = state l
  ∧ ∃ new, history w1 = history w ++ new
      ∧ Forall (writes_without_qts (sqlite_storage.id (state l))) new
      ∧ stored_after (sqlite_storage.id (state l)) new (storage w) (storage w1).
Proof.
  unfold stored_after.
  destruct r as [|[d s|p|nm ch us st|nm ch us st]]; cbn [body].
  - intros [= <- <- <-]. split; [done|]. exists [Log_exception]. cbn.
    split; [done|]. split; [|done]. by repeat constructor.
  - intros [= <- <- <-]. split; [done|].
    eexists [Update_state _ _ _ _ _]. cbn. split; [done|]. split.
    + by repeat constructor.
    + eexists. split; [apply (Storage_facts.lookup_update_state now) | done].
  - intros [= <- <- <-]. split; [done|].
    eexists [Update_state _ _ _ _ _]. cbn. split; [done|]. split.
    + by repeat constructor.
    + eexists. split; [apply (Storage_facts.lookup_update_state now) | done].
  - rewrite forward_eq. intros [= <- <- <-]. split; [done|].
    eexists. cbn. split; [done|]. split; [apply Forall_Put_nowait|].
    by rewrite existsb_Put_nowait.
  - case_match.
    + intros [= <- <- <-]. split; [done|]. exists []. cbn.
      rewrite app_nil_r. by repeat split.
    + rewrite forward_eq. intros [= <- <- <-]. split; [done|].
      eexists. cbn. split; [done|]. split; [apply Forall_Put_nowait|].
      by rewrite existsb_Put_nowait.
Qed.

Lemma while_True_effects now (script : list reply) (w : world) l :
  let res := while_True User_id Chat_id now script w l in
  ∃ new, history res.1.1 = history w ++ Invoke (query l) :: new
    ∧ Forall (writes_without_qts (sqlite_storage.id (state l))) new
    ∧ stored_after (sqlite_storage.id (state l)) new (storage w) (storage res.1.1).
Proof.
  revert w l. induction script as [|r script IH]; intros w l; cbn [while_True].
  - exists []. cbn. by repeat split.
  - destruct (body _ _ _ _ _ _) as [[w1 l1] f] eqn:Hbody.
    apply body_effects in Hbody as (Hst & new1 & Hh1 & Hall1 & Hsto1).
    cbn in Hh1, Hsto1. destruct f as [|b].
    + destruct (IH w1 l1) as (new2 & Hh2 & Hall2 & Hsto2).
      rewrite Hst in Hall2, Hsto2.
      exists (new1 ++ Invoke (query l1) :: new2). cbn. split; [|split].
      * rewrite Hh2, Hh1, <- !app_assoc. done.
      * apply Forall_app. split; [done|]. by constructor.
      * unfold stored_after in *. rewrite existsb_app. cbn.
        destruct (existsb is_Update_state new2); [by rewrite orb_true_r|].
        rewrite orb_false_r. by rewrite Hsto2.
    + exists new1. cbn. rewrite Hh1, <- app_assoc. by repeat split.
Qed.

(** *** The scripted runs *)

(** A pass answered with [DifferenceTooLong(pts=p)], from any loop state. *)
Lemma too_long_pass (now : Q) (p : Z) (rest : list reply) (w : world) (l : locals) :
  while_True User_id Chat_id now (Returned (DifferenceTooLong p) :: rest) w l
  = while_True User_id Chat_id now rest
      (storage_update_state now (sqlite_storage.id (state l)) p
         (Some (local_date l)) (local_seq l) (invoke (query l) w)) l.
Proof. reflexivity. Qed.

(** A run that is waiting for a reply has just sent the query of its
    current locals, and goes on from there when more replies come. *)
Lemma while_True_suspended now (pre : list reply) (w : world) l w1 l1 :
  while_True User_id Chat_id now pre w l = (w1, l1, None) →
  state l1 = state l
  ∧ ∃ w0, w1 = invoke (query l1) w0
      ∧ ∀ rest, while_True User_id Chat_id now (pre ++ rest) w l
                = while_True User_id Chat_id now rest w0 l1.
Proof.
  revert w l. induction pre as [|r pre IH]; intros w l; cbn [while_True app].
  - intros [= <- <-]. split; [done|]. by exists w.
  - destruct (body _ _ _ _ _ _) as [[w' l'] [|b]] eqn:Hbody; [|done].
    intros Hrun. apply body_effects in Hbody as [Hst _].
    destruct (IH _ _ Hrun) as (Hst1 & w0 & -> & Hrest).
    split; [congruence|]. by exists w0.
Qed.

(** C1: take any run of [recover_updates] that is waiting for a reply,
    with locals [l1].  If the reply is [DifferenceTooLong(pts=p)], the
    engine makes one cursor write for scope 0, with the server's [p] as
    [pts] next to the [local_date] and [local_seq] it held before the
    reply, and then sends its query again: the locals are unchanged, so
    this query carries the old [local_pts], as the query before the reply
    did, and not [p]. *)
Theorem too_long_keeps_local_pts (now later : Q) (p : Z) (pre : list reply)
    (w w1 : world) (l1 : locals) :
  recover_updates User_id Chat_id now pre w = (w1, l1, None) →
  let q := GetDifference.mk (local_pts l1) (local_date l1) 0 1000000 in
  ∃ w2 : world,
    recover_updates User_id Chat_id now (pre ++ [Returned (DifferenceTooLong p)]) w
    = (w2, l1, None)
    ∧ (∃ h, history w1 = h ++ [Invoke q])
    ∧ history w2
      = history w1 ++ [Update_state 0 p (Some (local_date l1)) None (local_seq l1);
                       Invoke q]
    ∧ updates_queue w2 = updates_queue w1
    ∧ sqlite_storage.state (storage w2)
      = <[0 := sqlite_storage.mk_state_row p (local_date l1) None (local_seq l1)]>
          (sqlite_storage.state (storage w1))
    ∧ (sqlite_storage.get_state later 0 (storage w2)).1
      = sqlite_storage.mkState 0 p (local_date l1) None (local_seq l1).
Proof.
  rewrite !recover_updates_enter. intros Hrun q.
  apply while_True_suspended in Hrun as (Hst & w0 & -> & Hrest).
  assert (Hid : sqlite_storage.id (state l1) = 0).
  { rewrite Hst. cbn. apply get_state_id. }
  rewrite Hrest, too_long_pass. cbn [while_True]. rewrite Hid.
  eexists. split; [reflexivity|]. split; [by eexists|].
  split; [cbn; by rewrite <- app_assoc|].
  split; [reflexivity|]. split; [reflexivity|].
  cbn. by rewrite (Storage_facts.read_after_write now).
Qed.

(** C2: on the replies [Slice(pts=5); Slice(pts=5)] the run is still going
    after the first reply and leaves the loop at the same-pts check of the
    second one, whatever the server would have answered afterwards.  The
    calls it made are the first query, one [put_nowait] per new message of
    the first reply (tagged [pts=5], [pts_count=-1]) and the second query:
    no cursor write is among them, the database is as before, and the
    queue grew by the first reply's messages only. *)
Theorem repeated_slice_pts_stops (now : Q) (rest : list reply) (w : world)
    (nm1 nm2 : list Message) (ch1 ch2 : list Chat) (us1 us2 : list User)
    (q1 d1 s1 u1 q2 d2 s2 u2 : Z) :
  let slice1 := Returned (DifferenceSlice nm1 ch1 us1 (updates_State.mk 5 q1 d1 s1 u1)) in
  let slice2 := Returned (DifferenceSlice nm2 ch2 us2 (updates_State.mk 5 q2 d2 s2 u2)) in
  let st0 := (sqlite_storage.get_state now 0 (storage w)).1 in
  let items := items_of User_id Chat_id 5 us1 ch1 nm1 in
  let new := [Invoke (GetDifference.mk (sqlite_storage.pts st0) (sqlite_storage.date st0) 0 1000000)]
             ++ (Put_nowait <$> items)
             ++ [Invoke (GetDifference.mk 5 d1 0 1000000)] in
  (recover_updates User_id Chat_id now [slice1] w).2 = None
  ∧ ∃ w' l',
      recover_updates User_id Chat_id now (slice1 :: slice2 :: rest) w
      = (w', l', Some break_same_pts)
      ∧ storage w' = storage w
      ∧ history w' = history w ++ new
      ∧ existsb is_Update_state new = false
      ∧ updates_queue w' = updates_queue w ++ items
      ∧ message_updates_counter l' = Z.of_nat (length nm1).
Proof.
  intros slice1 slice2 st0 items new. rewrite !recover_updates_enter.
  fold st0. subst slice1 slice2.
  cbn [while_True body entry_locals set_working prev_pts local_pts].
  change (0 =? 5) with false. cbn iota. rewrite forward_eq.
  cbn [while_True body entry_locals set_working set_prev_pts prev_pts local_pts
       local_date updates_State.pts updates_State.date].
  change (5 =? 5) with true. cbn iota.
  split; [reflexivity|].
  eexists _, _. split; [reflexivity|]. cbn.
  split; [reflexivity|]. split.
  { subst new. by rewrite <- !app_assoc. }
  split.
  { subst new. cbn. rewrite existsb_app, existsb_Put_nowait. reflexivity. }
  split; [reflexivity|]. lia.
Qed.

(** C3: on the replies [Full(state.pts=10, new_messages=[m1; m2]);
    Empty(date=99, seq=3)] the run makes, in this order, the first query,
    two [put_nowait] calls (for [m1] and [m2], each tagged [pts=10] and
    [pts_count=-1]), the second query with [pts=10], and one cursor write
    [(pts=10, date=99, seq=3)] for scope 0; it then leaves the loop through
    the [DifferenceEmpty] branch.  The queue grew by exactly the two
    events and the stored cursor of scope 0 reads back as
    [(10, 99, None, 3)]. *)
Theorem full_then_empty_done (now later : Q) (rest : list reply) (w : world)
    (m1 m2 : Message) (ch : list Chat) (us : list User) (q d s u : Z) :
  let full := Returned (Difference [m1; m2] ch us (updates_State.mk 10 q d s u)) in
  let empty := Returned (DifferenceEmpty 99 3) in
  let st0 := (sqlite_storage.get_state now 0 (storage w)).1 in
  let e1 := (UpdateNewMessage.mk m1 10 (-1), dict_by_id User_id us, dict_by_id Chat_id ch) in
  let e2 := (UpdateNewMessage.mk m2 10 (-1), dict_by_id User_id us, dict_by_id Chat_id ch) in
  (recover_updates User_id Chat_id now [full] w).2 = None
  ∧ ∃ w' l',
      recover_updates User_id Chat_id now (full :: empty :: rest) w
      = (w', l', Some break_DifferenceEmpty)
      ∧ updates_queue w' = updates_queue w ++ [e1; e2]
      ∧ history w'
        = history w
          ++ [Invoke (GetDifference.mk (sqlite_storage.pts st0) (sqlite_storage.date st0) 0 1000000);
              Put_nowait e1; Put_nowait e2;
              Invoke (GetDifference.mk 10 d 0 1000000);
              Update_state 0 10 (Some 99) None (Some 3)]
      ∧ sqlite_storage.state (storage w')
        = <[0 := sqlite_storage.mk_state_row 10 99 None (Some 3)]>
            (sqlite_storage.state (storage w))
      ∧ sqlite_storage.peers (storage w') = sqlite_storage.peers (storage w)
      ∧ (sqlite_storage.get_state later 0 (storage w')).1
        = sqlite_storage.mkState 0 10 99 None (Some 3)
      ∧ message_updates_counter l' = 2.
Proof.
  intros full empty st0 e1 e2.
  assert (Hid : sqlite_storage.id st0 = 0) by apply get_state_id.
  rewrite !recover_updates_enter. fold st0. clearbody st0.
  subst full empty e1 e2.
  cbn -[sqlite_storage.update_state sqlite_storage.get_state dict_by_id].
  rewrite Hid.
  split; [reflexivity|].
  eexists _, _. split; [reflexivity|].
  cbn -[sqlite_storage.update_state sqlite_storage.get_state dict_by_id].
  rewrite <- !app_assoc.
  split; [reflexivity|]. split; [reflexivity|].
  split; [reflexivity|]. split; [reflexivity|]. split; [|reflexivity].
  by rewrite (Storage_facts.read_after_write now).
Qed.

(** C9: a cursor write of the recovery loop never carries a [qts].  The
    [DifferenceEmpty] and the [DifferenceTooLong] branch each make one
    [update_state] call with [qts] left at [None], and the row they store
    has no [qts].  Over a whole run of [recover_updates], every cursor
    write goes to scope 0 with [qts = None]; since the write replaces the
    row, once the run has written at all the row of scope 0 holds no
    [qts], whatever it held before. *)
Theorem persists_drop_qts (now : Q) (script : list reply) (w : world) :
  (∀ l d s,
     let w1 := (body User_id Chat_id now (Returned (DifferenceEmpty d s)) w l).1.1 in
     history w1
     = history w ++ [Update_state (sqlite_storage.id (state l)) (local_pts l)
                       (Some d) None (Some s)]
     ∧ sqlite_storage.state (storage w1) !! sqlite_storage.id (state l)
       = Some (sqlite_storage.mk_state_row (local_pts l) d None (Some s)))
  ∧ (∀ l p,
     let w1 := (body User_id Chat_id now (Returned (DifferenceTooLong p)) w l).1.1 in
     history w1
     = history w ++ [Update_state (sqlite_storage.id (state l)) p
                       (Some (local_date l)) None (local_seq l)]
     ∧ sqlite_storage.state (storage w1) !! sqlite_storage.id (state l)
       = Some (sqlite_storage.mk_state_row p (local_date l) None (local_seq l)))
  ∧ let w' := (recover_updates User_id Chat_id now script w).1.1 in
    let new := drop (length (history w)) (history w') in
    history w' = history w ++ new
    ∧ (∀ i p d q s, Update_state i p d q s ∈ new → i = 0 ∧ q = None)
    ∧ ((∃ i p d q s, Update_state i p d q s ∈ new) →
       ∃ row, sqlite_storage.state (storage w') !! 0 = Some row
              ∧ sqlite_storage.row_qts row = None).
Proof.
  split; [|split].
  - intros l d s. cbn. split; [done|]. apply (Storage_facts.lookup_update_state now).
  - intros l p. cbn. split; [done|]. apply (Storage_facts.lookup_update_state now).
  - rewrite recover_updates_enter.
    destruct (while_True_effects now script w
                (entry_locals (sqlite_storage.get_state now 0 (storage w)).1))
      as (new0 & Hh & Hall & Hsto).
    cbn [entry_locals state] in Hall, Hsto. rewrite get_state_id in Hall, Hsto.
    cbn zeta. rewrite Hh, drop_app_length. split; [done|]. split.
    + intros i p d q s [Heq|Hin]%elem_of_cons; [done|].
      rewrite Forall_forall in Hall. apply (Hall _ Hin).
    + intros (i & p & d & q & s & [Heq|Hin]%elem_of_cons); [done|].
      unfold stored_after in Hsto.
      assert (Hex : existsb is_Update_state new0 = true).
      { apply existsb_exists. eexists. split; [by apply list_elem_of_In|done]. }
      by rewrite Hex in Hsto.
Qed.

End with_objects.

End Recover_facts.

(** ** The samples, evaluated *)
Module Sample_facts.

Import sqlite_storage raw Recover Samples.

(** Of the two rows named alice the hour-old one is taken. *)
Example alice_resolves :
  get_peer_by_username offset_channel_id noon "alice" directory
  = Return (InputPeerUser 10 111).
Proof. vm_compute. reflexivity. Qed.

(** A row written nine hours ago has expired. *)
Example bob_expired :
  get_peer_by_username offset_channel_id noon "bob" directory
  = Raise (KeyError_Username_expired "bob").
Proof. vm_compute. reflexivity. Qed.

(** So has a row stamped nine hours ahead of the clock. *)
Example erin_expired :
  get_peer_by_username offset_channel_id noon "erin" directory
  = Raise (KeyError_Username_expired "erin").
Proof. vm_compute. reflexivity. Qed.

Example carol_invalid_type :
  get_peer_by_username offset_channel_id noon "carol" directory
  = Raise (ValueError_Invalid_peer_type "secret").
Proof. vm_compute. reflexivity. Qed.

(** After [TooLong(500)] the same query goes out again, and the write of
    the [Empty] branch that follows stores the old [pts] over the 500. *)
Example too_long_then_empty_history :
  let res := recover_updates (λ x, x) (λ x, x) noon too_long_then_empty start in
  history res.1.1
  = [Invoke (GetDifference.mk 40 1700000000 0 1000000);
     Update_state 0 500 (Some 1700000000) None (Some 3);
     Invoke (GetDifference.mk 40 1700000000 0 1000000);
     Update_state 0 40 (Some 99) None (Some 3)]
  ∧ sqlite_storage.state (storage res.1.1) !! 0 = Some (mk_state_row 40 99 None (Some 3))
  ∧ res.2 = Some break_DifferenceEmpty.
Proof. vm_compute. repeat split; reflexivity. Qed.

Lemma get_input_peer_by_type_witness :
  get_input_peer offset_channel_id 10 111 "bot" = Return (InputPeerUser 10 111)
  ∧ get_input_peer offset_channel_id 12 333 "group" = Return (InputPeerChat (-12))
  ∧ get_input_peer offset_channel_id 15 666 "supergroup"
    = Return (InputPeerChannel (offset_channel_id 15) 666)
  ∧ get_input_peer offset_channel_id 13 444 "secret"
    = Raise (ValueError_Invalid_peer_type "secret").
Proof.
  split; [|split; [|split]].
  - apply (Peers_facts.get_input_peer_by_type offset_channel_id 10 111 "bot").
    right. reflexivity.
  - apply (Peers_facts.get_input_peer_by_type offset_channel_id 12 333 "group").
    reflexivity.
  - apply (Peers_facts.get_input_peer_by_type offset_channel_id 15 666 "supergroup").
    right. reflexivity.
  - apply (Peers_facts.get_input_peer_by_type offset_channel_id 13 444 "secret").
    apply (bool_decide_unpack _). vm_compute. exact I.
Defined.

Lemma get_peer_by_username_freshest_witness :
  get_peer_by_username offset_channel_id noon "dave" directory
  = Raise (KeyError_Username_not_found "dave")
  ∧ ∃ i r,
      peers directory !! i = Some r ∧ username r = Some "alice"
      ∧ (∀ i' r', peers directory !! i' = Some r' → username r' = Some "alice" →
                  last_update_on r' ≤ last_update_on r)
      ∧ ((inject_Z USERNAME_TTL < Qabs (noon - inject_Z (last_update_on r)))%Q →
         get_peer_by_username offset_channel_id noon "alice" directory
         = Raise (KeyError_Username_expired "alice"))
      ∧ ((Qabs (noon - inject_Z (last_update_on r)) <= inject_Z USERNAME_TTL)%Q →
         get_peer_by_username offset_channel_id noon "alice" directory
         = get_input_peer offset_channel_id i (access_hash r) (type r)).
Proof.
  split.
  - apply (Peers_facts.get_peer_by_username_freshest offset_channel_id noon "dave" directory).
    apply (bool_decide_unpack (map_Forall (λ _ r, username r ≠ Some "dave") (peers directory))).
    vm_compute. exact I.
  - apply (proj2 (proj2 (Peers_facts.get_peer_by_username_freshest
                           offset_channel_id noon "alice" directory))
             11 (mk_peer_row 222 "channel" (Some "alice") None 1699967600));
      reflexivity.
Defined.

Lemma persists_drop_qts_witness :
  let w' := (recover_updates (λ x, x) (λ x, x) noon too_long_then_empty start).1.1 in
  sqlite_storage.row_qts <$> sqlite_storage.state (storage start) !! 0 = Some (Some 7)
  ∧ ∃ row, sqlite_storage.state (storage w') !! 0 = Some row
           ∧ sqlite_storage.row_qts row = None.
Proof.
  split; [reflexivity|].
  apply (proj2 (proj2 (proj2 (proj2
           (Recover_facts.persists_drop_qts (λ x, x) (λ x, x) noon too_long_then_empty start))))).
  exists 0, 500, (Some 1700000000), None, (Some 3).
  vm_compute. apply list_elem_of_further, list_elem_of_here.
Defined.

Lemma too_long_keeps_local_pts_witness :
  let res1 := recover_updates (λ x, x) (λ x, x) noon full_10 start in
  let res2 := recover_updates (λ x, x) (λ x, x) noon
                (full_10 ++ [Returned (DifferenceTooLong 500)]) start in
  res1.2 = None
  ∧ res2.1.2 = res1.1.2
  ∧ history res2.1.1
    = history res1.1.1
      ++ [Update_state 0 500 (Some 1700000100) None (Some 4);
          Invoke (GetDifference.mk 10 1700000100 0 1000000)].
Proof.
  intros res1 res2.
  destruct (Recover_facts.too_long_keeps_local_pts (λ x, x) (λ x, x) noon noon 500
              full_10 start res1.1.1 res1.1.2 ltac:(reflexivity))
    as (w2 & Hrun & _ & Hh & _).
  subst res2. rewrite Hrun. split; [reflexivity|]. split; [reflexivity|]. exact Hh.
Defined.

End Sample_facts.

(** ** Cursor store: omitted date, overwriting, resetting *)
Module Cursor_facts.

Import sqlite_storage.

(** X1: [update_state] called without a [date] stores the whole seconds
    of its own clock reading: the cursor read back carries
    [int(time.time())] of the write, less than a second away from that
    reading, next to the written [pts], [qts] and [seq]. *)
Theorem update_state_omitted_date (now later : Q) (i p : Z) (q s : option Z) (c : conn) :
  (get_state later i (update_state now i p None q s c)).1 = mkState i p (int now) q s
  ∧ (Qabs (now - inject_Z (date (get_state later i (update_state now i p None q s c)).1)) < 1)%Q
  ∧ update_state now i p None q s c = update_state later i p (Some (int now)) q s c.
Proof.
  assert (Hget : (get_state later i (update_state now i p None q s c)).1
                 = mkState i p (int now) q s).
  { unfold get_state, update_state, set_state. cbn. by rewrite lookup_insert_eq. }
  rewrite Hget. repeat split. cbn. apply int_within_one.
Qed.

(** X2: [update_state] replaces the row: of two writes to the same scope
    only the second is left, also when the first carried a [qts] or [seq]
    that the second leaves out.  The write changes no other scope's
    cursor and no peer. *)
Theorem update_state_last_write_wins (now1 now2 later : Q) (i p1 p2 : Z)
    (d1 d2 q1 q2 s1 s2 : option Z) (c : conn) :
  update_state now2 i p2 d2 q2 s2 (update_state now1 i p1 d1 q1 s1 c)
  = update_state now2 i p2 d2 q2 s2 c
  ∧ (∀ j, j ≠ i →
       get_state later j (update_state now2 i p2 d2 q2 s2 c)
       = ((get_state later j c).1, update_state now2 i p2 d2 q2 s2 c))
  ∧ peers (update_state now2 i p2 d2 q2 s2 c) = peers c.
Proof.
  split; [|split].
  - unfold update_state, set_state. cbn. by rewrite insert_insert_eq.
  - intros j Hj. unfold get_state, update_state, set_state. cbn.
    rewrite lookup_insert_ne by done. by destruct (state c !! j).
  - reflexivity.
Qed.



(** X4: after [reset_state], [get_state] reports [pts = 1] and for the
    rest what it reported before the reset at the same clock reading;
    this holds whether or not the scope has a stored row. *)
Theorem get_state_after_reset_state (later : Q) (i : Z) (c : conn) :
  (get_state later i (reset_state i c)).1
  = mkState i 1 (date (get_state later i c).1) (qts (get_state later i c).1)
      (seq (get_state later i c).1).
Proof.
  unfold get_state, reset_state, set_state. cbn. rewrite lookup_alter_eq.
  by destruct (state c !! i).
Qed.

(** X5: a reset after a write is the write with [pts = 1]: the written
    [date], [qts] and [seq] stay. *)
Theorem reset_state_after_update_state (now : Q) (i p : Z) (d q s : option Z) (c : conn) :
  reset_state i (update_state now i p d q s c) = update_state now i 1 d q s c.
Proof.
  unfold reset_state, update_state, set_state. cbn. by rewrite alter_insert_eq.
Qed.

End Cursor_facts.

(** ** Peer directory cache: bulk write and the other lookups *)
Module Directory_facts.

Import sqlite_storage SQLiteStorage.

(** The whole seconds of a clock reading are less than a second before it. *)
Lemma strftime_s_within_one (t : Q) : (Qabs (t - inject_Z (strftime_s t)) < 1)%Q.
Proof.
  destruct t as [n d]. unfold strftime_s, Qlt, Qabs, Qminus, Qplus, Qopp, inject_Z.
  cbn [Qnum Qden].
  pose proof (Z.div_mod n (Z.pos d) ltac:(lia)) as Hdm.
  pose proof (Z.mod_pos_bound n (Z.pos d) ltac:(lia)) as Hb.
  replace (n * 1 + - (n `div` Z.pos d) * Z.pos d) with (n `mod` Z.pos d) by lia.
  rewrite Pos.mul_1_r. lia.
Qed.

Lemma update_peers_snoc batch tp (c : conn) :
  update_peers (batch ++ [tp]) c = replace_into_peers tp.1 tp.2 (update_peers batch c).
Proof. unfold update_peers. by rewrite foldl_snoc. Qed.

(** The row of [id] after a batch: written by the last tuple with that
    id, or the old one when the batch has none. *)
Lemma lookup_update_peers batch (c : conn) (i : Z) :
  peers (update_peers batch c) !! i
  = match last (filter (λ tp, t_id tp.2 = i) batch) with
    | Some tp => Some (mk_peer_row (t_access_hash tp.2) (t_type tp.2) (t_username tp.2)
                         (t_phone_number tp.2) (strftime_s tp.1))
    | None => peers c !! i
    end.
Proof.
  induction batch as [|tp batch IH] using rev_ind; [done|].
  rewrite update_peers_snoc, filter_app, last_app.
  unfold replace_into_peers, set_peers. cbn [peers].
  rewrite filter_cons, filter_nil. case_decide as Hi.
  - cbn [last]. rewrite <- Hi. by rewrite lookup_insert_eq.
  - cbn [last]. by rewrite lookup_insert_ne.
Qed.

Lemma state_update_peers batch (c : conn) : state (update_peers batch c) = state c.
Proof. induction batch as [|tp batch IH] using rev_ind; [done|]. by rewrite update_peers_snoc. Qed.

Section with_channel_id.

Variable get_channel_id : Z → Z.

(** X6: after [update_peers], a lookup by id answers from the last tuple
    of the batch that carries the id, with that tuple's access hash and
    type, and the row is stamped with the whole seconds of that
    statement's clock reading; earlier tuples with the same id and the
    row stored before leave no trace.  An id the batch does not mention
    resolves as before, and the cursors are untouched. *)
Theorem update_peers_last_tuple_wins (batch : list (Q * peer_tuple)) (c : conn) (i : Z) :
  state (update_peers batch c) = state c
  ∧ get_peer_by_id get_channel_id i (update_peers batch c)
    = match last (filter (λ tp, t_id tp.2 = i) batch) with
      | Some tp => get_input_peer get_channel_id i (t_access_hash tp.2) (t_type tp.2)
      | None => get_peer_by_id get_channel_id i c
      end
  ∧ last_update_on <$> peers (update_peers batch c) !! i
    = match last (filter (λ tp, t_id tp.2 = i) batch) with
      | Some tp => Some (strftime_s tp.1)
      | None => last_update_on <$> peers c !! i
      end.
Proof.
  split; [apply state_update_peers|].
  unfold get_peer_by_id. rewrite lookup_update_peers.
  by destruct (last _).
Qed.

(** The scan for a username after one [REPLACE], when no other row
    carries the username. *)
Lemma select_by_username_replaced (t : Q) (p : peer_tuple) (u : string) (c : conn) :
  t_username p = Some u →
  (∀ j r, j ≠ t_id p → peers c !! j = Some r → username r ≠ Some u) →
  select_by_username u (replace_into_peers t p c)
  = Some (t_id p, mk_peer_row (t_access_hash p) (t_type p) (t_username p)
                    (t_phone_number p) (strftime_s t)).
Proof.
  intros Hu Hothers.
  destruct (select_by_username u (replace_into_peers t p c)) as [[i r]|] eqn:Hsel.
  - apply (Peers_facts.select_by_username_Some get_channel_id) in Hsel as (Hi & Hur & _). cbn in Hi, Hur.
    unfold replace_into_peers, set_peers in Hi. cbn in Hi.
    destruct (decide (i = t_id p)) as [->|Hne].
    + rewrite lookup_insert_eq in Hi. by injection Hi as <-.
    + rewrite lookup_insert_ne in Hi by done. by destruct (Hothers i r Hne Hi).
  - rewrite (Peers_facts.select_by_username_None get_channel_id) in Hsel.
    destruct (Hsel (t_id p) (mk_peer_row (t_access_hash p) (t_type p) (t_username p)
                              (t_phone_number p) (strftime_s t))); [|done].
    unfold replace_into_peers, set_peers. cbn. by rewrite lookup_insert_eq.
Qed.

(** X7: a username written by [REPLACE] and carried by no other row
    resolves to the written peer for as long as the clock stays within
    [USERNAME_TTL] of the whole seconds of the write, the bound
    included, and is reported expired beyond; in particular it resolves
    at the clock reading of the write itself. *)
Theorem replaced_username_resolves (t now : Q) (p : peer_tuple) (u : string) (c : conn) :
  t_username p = Some u →
  (∀ j r, j ≠ t_id p → peers c !! j = Some r → username r ≠ Some u) →
  ((Qabs (now - inject_Z (strftime_s t)) <= inject_Z 28800)%Q →
     get_peer_by_username get_channel_id now u (replace_into_peers t p c)
     = get_input_peer get_channel_id (t_id p) (t_access_hash p) (t_type p))
  ∧ ((inject_Z 28800 < Qabs (now - inject_Z (strftime_s t)))%Q →
     get_peer_by_username get_channel_id now u (replace_into_peers t p c)
     = Raise (KeyError_Username_expired u))
  ∧ get_peer_by_username get_channel_id t u (replace_into_peers t p c)
    = get_input_peer get_channel_id (t_id p) (t_access_hash p) (t_type p).
Proof.
  intros Hu Hothers. unfold get_peer_by_username.
  rewrite (select_by_username_replaced t p u c Hu Hothers). cbn [fst snd last_update_on
    access_hash type].
  change (inject_Z USERNAME_TTL) with (inject_Z 28800).
  split; [|split].
  - intros Hle%Qgtb_false. by rewrite Hle.
  - intros Hgt%Qgtb_true. by rewrite Hgt.
  - assert (Hfresh : Qgtb (Qabs (t - inject_Z (strftime_s t))) (inject_Z 28800) = false).
    { apply Qgtb_false. apply Qlt_le_weak.
      eapply Qlt_trans; [apply strftime_s_within_one|]. reflexivity. }
    by rewrite Hfresh.
Qed.

(** X8: [REPLACE] writes the whole row.  When the tuple for an id carries
    another username (or none), a username that only the replaced row
    could have carried is not found any more. *)
Theorem replaced_row_loses_username (t now : Q) (p : peer_tuple) (u : string) (c : conn) :
  t_username p ≠ Some u →
  (∀ j r, j ≠ t_id p → peers c !! j = Some r → username r ≠ Some u) →
  get_peer_by_username get_channel_id now u (replace_into_peers t p c)
  = Raise (KeyError_Username_not_found u).
Proof.
  intros Hu Hothers. unfold get_peer_by_username.
  assert (Hnone : select_by_username u (replace_into_peers t p c) = None).
  { apply (Peers_facts.select_by_username_None get_channel_id). intros j r Hj.
    unfold replace_into_peers, set_peers in Hj. cbn in Hj.
    destruct (decide (j = t_id p)) as [->|Hne].
    - rewrite lookup_insert_eq in Hj. by injection Hj as <-.
    - rewrite lookup_insert_ne in Hj by done. by apply (Hothers j r). }
  by rewrite Hnone.
Qed.

(** *** Lookup by phone number *)

Lemma elem_of_phone_scan (ph : string) (c : conn) (r : Z * peer_row) :
  r ∈ filter (λ r, has_phone_number ph r = true) (map_to_list (peers c))
  ↔ peers c !! r.1 = Some r.2 ∧ phone_number r.2 = Some ph.
Proof.
  rewrite list_elem_of_filter. destruct r as [i r]. rewrite elem_of_map_to_list.
  unfold has_phone_number. rewrite bool_decide_eq_true. cbn. tauto.
Qed.

Lemma select_by_phone_number_None (ph : string) (c : conn) :
  select_by_phone_number ph c = None
  ↔ ∀ i r, peers c !! i = Some r → phone_number r ≠ Some ph.
Proof.
  unfold select_by_phone_number. rewrite head_None. split.
  - intros Hnil i r Hi Hph.
    assert (Hin : (i, r) ∈ filter (λ r, has_phone_number ph r = true) (map_to_list (peers c)))
      by by apply elem_of_phone_scan.
    rewrite Hnil in Hin. by apply elem_of_nil in Hin.
  - intros Hno.
    destruct (filter _ _) as [|[i r] rows] eqn:Hf; [done|].
    assert (Hin : (i, r) ∈ filter (λ r, has_phone_number ph r = true) (map_to_list (peers c)))
      by (rewrite Hf; apply list_elem_of_here).
    apply elem_of_phone_scan in Hin as [Hi Hph]. by destruct (Hno i r Hi).
Qed.

(** X9: [get_peer_by_phone_number] raises its not-found error exactly
    when no stored row carries the phone number; otherwise it answers
    with [get_input_peer] of a stored row that carries it.  No clock is
    read: unlike a username, a phone number does not expire. *)
Theorem get_peer_by_phone_number_found (ph : string) (c : conn) :
  ((∀ i r, peers c !! i = Some r → phone_number r ≠ Some ph) →
     get_peer_by_phone_number get_channel_id ph c
     = Fail (KeyError_Phone_number_not_found ph))
  ∧ (∀ i0 r0, peers c !! i0 = Some r0 → phone_number r0 = Some ph →
     ∃ i r, peers c !! i = Some r ∧ phone_number r = Some ph
       ∧ get_peer_by_phone_number get_channel_id ph c
         = lift (get_input_peer get_channel_id i (access_hash r) (type r))
       ∧ get_peer_by_phone_number get_channel_id ph c
         ≠ Fail (KeyError_Phone_number_not_found ph)).
Proof.
  split.
  - intros Hno%select_by_phone_number_None. unfold get_peer_by_phone_number.
    by rewrite Hno.
  - intros i0 r0 Hi0 Hph0. unfold get_peer_by_phone_number.
    destruct (select_by_phone_number ph c) as [[i r]|] eqn:Hsel.
    + apply head_Some_elem_of, elem_of_phone_scan in Hsel as [Hi Hph]. cbn in *.
      exists i, r. repeat split; [done..|].
      by destruct (get_input_peer _ _ _ _).
    + rewrite select_by_phone_number_None in Hsel. by destruct (Hsel i0 r0 Hi0).
Qed.

End with_channel_id.

End Directory_facts.

(** ** Session accessors, [version], [save] and [create] *)
Module Session_facts.

Import sqlite_storage SQLiteStorage.

Lemma database_eta (db : database) :
  mk_database (tables db) (sessions db) (version_number db) = db.
Proof. by destruct db. Qed.

(** X10: with a session row in place, an accessor called with a value
    and then without one returns that value, for each of the seven
    columns.  For the two [bool] accessors the value read back is the
    integer the database stored: 1 for [True], 0 for [False]. *)
Theorem accessor_write_then_read (db : database) :
  is_Some (sessions db) →
  (∀ a v, (_accessor a None (_accessor a (Some v) db).2).1 = Ok (Some v))
  ∧ (∀ b, (test_mode None (test_mode (Some b) db).2).1 = Ok (Some (if b then 1 else 0)))
  ∧ (∀ b, (is_bot None (is_bot (Some b) db).2).1 = Ok (Some (if b then 1 else 0))).
Proof.
  intros [r Hr]. unfold test_mode, is_bot, _accessor, _get, _set. cbn. rewrite Hr. cbn.
  split; [|split].
  - by intros [] v.
  - by intros [].
  - by intros [].
Qed.

Lemma accessor_write_then_read_witness :
  (auth_key None (auth_key (Some [Byte.x01; Byte.xff]) create).2).1
  = Ok (Some [Byte.x01; Byte.xff])
  ∧ (test_mode None (test_mode (Some true) create).2).1 = Ok (Some 1).
Proof.
  destruct (accessor_write_then_read create ltac:(by eexists)) as (H1 & H2 & _).
  split; [apply (H1 col_auth_key) | apply (H2 true)].
Defined.

(** X11: writing one column through its accessor leaves what every other
    accessor reads, the version and the other tables as they were. *)
Theorem accessor_write_frame (a a' : column) (v : column_type a) (db : database) :
  a ≠ a' →
  (_accessor a' None (_accessor a (Some v) db).2).1 = (_accessor a' None db).1
  ∧ tables (_accessor a (Some v) db).2 = tables db
  ∧ version_number (_accessor a (Some v) db).2 = version_number db.
Proof.
  intros Hne. unfold _accessor, _get, _set. cbn.
  split; [|done]. destruct (sessions db) as [r|]; [|done]. cbn.
  by destruct a, a'.
Qed.

Lemma accessor_write_frame_witness :
  (_accessor col_dc_id None (_accessor col_user_id (Some 42) create).2).1
  = (_accessor col_dc_id None create).1.
Proof. apply (accessor_write_frame col_user_id col_dc_id 42 create). discriminate. Defined.

(** X12: without a session row (a database on which [create] has not
    run its inserts) every read through an accessor fails with the
    [TypeError] of subscripting [None]; a write returns normally and
    changes nothing, so a read after it fails the same way, and [save]
    stores no date. *)
Theorem accessor_without_session_row (now : Q) (db : database) :
  sessions db = None →
  (∀ a, (_accessor a None db).1 = Fail TypeError_NoneType_not_subscriptable)
  ∧ (∀ a v, _accessor a (Some v) db = (Ok None, db))
  ∧ (∀ a v, (_accessor a None (_accessor a (Some v) db).2).1
            = Fail TypeError_NoneType_not_subscriptable)
  ∧ save now db = db.
Proof.
  intros Hnone.
  assert (Hset : ∀ a v, _set a v db = db).
  { intros a v. unfold _set. rewrite Hnone. cbn. rewrite <- Hnone. apply database_eta. }
  assert (Hget : ∀ a, _get a db = Fail TypeError_NoneType_not_subscriptable).
  { intros a. unfold _get. by rewrite Hnone. }
  split; [intros a; apply Hget|].
  split; [intros a v; unfold _accessor; by rewrite Hset|].
  split; [intros a v; unfold _accessor; cbn; rewrite Hset; apply Hget|].
  unfold save, date, _accessor. cbn. apply Hset.
Qed.

Lemma accessor_without_session_row_witness :
  (date None (mk_database (mk_conn ∅ ∅) None None)).1
  = Fail TypeError_NoneType_not_subscriptable
  ∧ save (3 # 2) (mk_database (mk_conn ∅ ∅) None None) = mk_database (mk_conn ∅ ∅) None None.
Proof.
  destruct (accessor_without_session_row (3 # 2) (mk_database (mk_conn ∅ ∅) None None)
              ltac:(reflexivity)) as (H1 & _ & _ & H4).
  split; [apply (H1 col_date) | exact H4].
Defined.

(** X13: [save] stores the whole seconds of its clock reading as the
    session date, less than a second away from that reading; every other
    column, the version and the other tables are as before. *)
Theorem save_stores_date (now : Q) (db : database) :
  is_Some (sessions db) →
  (date None (save now db)).1 = Ok (Some (int now))
  ∧ (Qabs (now - inject_Z (int now)) < 1)%Q
  ∧ (∀ a, a ≠ col_date → (_accessor a None (save now db)).1 = (_accessor a None db).1)
  ∧ tables (save now db) = tables db
  ∧ version_number (save now db) = version_number db.
Proof.
  intros [r Hr]. unfold save, date, _accessor, _get, _set. cbn. rewrite Hr. cbn.
  split; [done|]. split; [apply int_within_one|]. split; [|done].
  by intros [].
Qed.

Lemma save_stores_date_witness :
  (date None (save (3400000001 # 2) create)).1 = Ok (Some 1700000000).
Proof.
  apply (save_stores_date (3400000001 # 2) create). by eexists.
Defined.

(** X14: [version] called with a number and then without one returns
    that number when the version row exists, and touches neither the
    session row nor the other tables; without the row the read fails
    with the [TypeError] and the write changes nothing. *)
Theorem version_write_then_read (v : Z) (db : database) :
  (is_Some (version_number db) →
     (version None (version (Some v) db).2).1 = Ok (Some v))
  ∧ (version_number db = None →
     (version None db).1 = Fail TypeError_NoneType_not_subscriptable
     ∧ (version (Some v) db).2 = db)
  ∧ sessions (version (Some v) db).2 = sessions db
  ∧ tables (version (Some v) db).2 = tables db.
Proof.
  unfold version. cbn. split; [|split; [|done]].
  - intros [n ->]. done.
  - intros Hnone. rewrite Hnone. split; [done|]. cbn. rewrite <- Hnone. apply database_eta.
Qed.

Lemma version_write_then_read_witness :
  (version None (version (Some 4) create).2).1 = Ok (Some 4).
Proof. apply (version_write_then_read 4 create). by eexists. Defined.

Section with_channel_id.

Variable get_channel_id : Z → Z.

(** The storage that [create] sets up reads as data centre 2, date
    0, version 3 and [None] for the remaining session columns; it holds
    no peer (every lookup by id, username or phone number raises its
    not-found error) and no cursor (every scope reads as the default
    cursor). *)
Lemma create_initial_storage :
  (dc_id None create).1 = Ok (Some 2)
  ∧ (api_id None create).1 = Ok None
  ∧ (test_mode None create).1 = Ok None
  ∧ (auth_key None create).1 = Ok None
  ∧ (date None create).1 = Ok (Some 0)
  ∧ (user_id None create).1 = Ok None
  ∧ (is_bot None create).1 = Ok None
  ∧ (version None create).1 = Ok (Some 3)
  ∧ (∀ now i, (get_state now i (tables create)).1 = mkState i 1 (int now) None None)
  ∧ (∀ i, get_peer_by_id get_channel_id i (tables create) = Raise (KeyError_ID_not_found i))
  ∧ (∀ now u, get_peer_by_username get_channel_id now u (tables create)
              = Raise (KeyError_Username_not_found u))
  ∧ (∀ ph, get_peer_by_phone_number get_channel_id ph (tables create)
           = Fail (KeyError_Phone_number_not_found ph)).
Proof.
  repeat split.
Qed.

End with_channel_id.

End Session_facts.

(** ** Recovery loop: every reply, and whole runs *)
Module Run_facts.

Import raw Recover Script.

Section with_objects.

Context {Message User Chat : Type}.
Variable User_id : User → Z.
Variable Chat_id : Chat → Z.

Local Abbreviation world := (world Message User Chat).
Local Abbreviation reply := (reply Message User Chat).
Local Abbreviation effect := (effect Message User Chat).

(** X15: [{x.id: x for x in xs}] maps an id to the last element of the
    list that carries it, and holds no other id. *)
Theorem dict_by_id_last_wins {A : Type} (key : A → Z) (xs : list A) (k : Z) :
  dict_by_id key xs !! k = last (filter (λ x, key x = k) xs).
Proof.
  unfold dict_by_id. induction xs as [|x xs IH] using rev_ind; [done|].
  rewrite foldl_snoc, filter_app, last_app, filter_cons, filter_nil.
  case_decide as Hk.
  - cbn [last]. rewrite <- Hk. by rewrite lookup_insert_eq.
  - cbn [last]. by rewrite lookup_insert_ne.
Qed.

(** *** A reply that ends the run *)

(** X16: when the call to the server raises, the run that was waiting
    for the reply logs the exception and is over: nothing is stored and
    nothing is enqueued, and whatever the server would have answered
    afterwards is not asked for. *)
Theorem exception_ends_run (now : Q) (pre rest : list reply) (w w1 : world) (l1 : locals) :
  recover_updates User_id Chat_id now pre w = (w1, l1, None) →
  ∃ w2 : world,
    recover_updates User_id Chat_id now (pre ++ Raised :: rest) w
    = (w2, l1, Some break_exception)
    ∧ history w2 = history w1 ++ [Log_exception]
    ∧ storage w2 = storage w1
    ∧ updates_queue w2 = updates_queue w1.
Proof.
  rewrite !Recover_facts.recover_updates_enter. intros Hrun.
  apply Recover_facts.while_True_suspended in Hrun as (_ & w0 & -> & Hrest).
  rewrite Hrest. cbn [while_True body]. by eexists.
Qed.

(** X17: a [DifferenceEmpty(date=d, seq=s)] reply ends the run that was
    waiting for it with one cursor write for scope 0: the working
    [local_pts] next to the reply's [d] and [s], and no [qts].  Nothing is
    enqueued and later replies are not asked for. *)
Theorem empty_ends_run (now later : Q) (d s : Z) (pre rest : list reply)
    (w w1 : world) (l1 : locals) :
  recover_updates User_id Chat_id now pre w = (w1, l1, None) →
  ∃ w2 : world,
    recover_updates User_id Chat_id now (pre ++ Returned (DifferenceEmpty d s) :: rest) w
    = (w2, l1, Some break_DifferenceEmpty)
    ∧ history w2 = history w1 ++ [Update_state 0 (local_pts l1) (Some d) None (Some s)]
    ∧ updates_queue w2 = updates_queue w1
    ∧ (sqlite_storage.get_state later 0 (storage w2)).1
      = sqlite_storage.mkState 0 (local_pts l1) d None (Some s).
Proof.
  rewrite !Recover_facts.recover_updates_enter. intros Hrun.
  apply Recover_facts.while_True_suspended in Hrun as (Hst & w0 & -> & Hrest).
  assert (Hid : sqlite_storage.id (state l1) = 0).
  { rewrite Hst. cbn. apply Recover_facts.get_state_id. }
  rewrite Hrest. cbn [while_True body]. rewrite Hid.
  eexists. split; [reflexivity|]. split; [reflexivity|]. split; [reflexivity|].
  cbn. by rewrite (Storage_facts.read_after_write now).
Qed.

(** X18: a [DifferenceSlice] whose intermediate [pts] equals [prev_pts]
    ends the run that was waiting for it at once: its new messages are
    not enqueued, nothing is stored, and the world is exactly as it was
    when the query went out; only the working cursor has taken the
    slice's state. *)
Theorem stale_slice_ends_run (now : Q) (nm : list Message) (ch : list Chat)
    (us : list User) (st : updates_State.t) (pre rest : list reply)
    (w w1 : world) (l1 : locals) :
  recover_updates User_id Chat_id now pre w = (w1, l1, None) →
  updates_State.pts st = prev_pts l1 →
  recover_updates User_id Chat_id now (pre ++ Returned (DifferenceSlice nm ch us st) :: rest) w
  = (w1,
     set_working (updates_State.pts st) (updates_State.date st)
       (Some (updates_State.seq st)) l1,
     Some break_same_pts).
Proof.
  rewrite !Recover_facts.recover_updates_enter. intros Hrun Hpts.
  apply Recover_facts.while_True_suspended in Hrun as (_ & w0 & -> & Hrest).
  rewrite Hrest. cbn [while_True body set_working prev_pts local_pts].
  rewrite Hpts, Z.eqb_refl. reflexivity.
Qed.

(** X19: [prev_pts] starts at 0, so a first reply that is a
    [DifferenceSlice] with intermediate [pts = 0] ends the run before any
    of its messages is enqueued. *)
Theorem first_slice_with_pts_0 (now : Q) (nm : list Message) (ch : list Chat)
    (us : list User) (q d s u : Z) (rest : list reply) (w : world) :
  ∃ w' l',
    recover_updates User_id Chat_id now
      (Returned (DifferenceSlice nm ch us (updates_State.mk 0 q d s u)) :: rest) w
    = (w', l', Some break_same_pts)
    ∧ updates_queue w' = updates_queue w
    ∧ storage w' = storage w
    ∧ message_updates_counter l' = 0.
Proof.
  rewrite Recover_facts.recover_updates_enter. cbn. by eexists _, _.
Qed.

(** *** A reply that moves the working cursor *)

(** X20: a [Difference] reply, and a [DifferenceSlice] reply whose
    intermediate [pts] differs from [prev_pts], make the waiting run
    enqueue one event per new message, in the order of the reply, each
    tagged with the reply's [pts] and carrying the reply's own user and
    chat maps, and then send the next query with the reply's [pts] and
    [date].  Neither stores anything: the cursor in the database is
    written by [DifferenceEmpty] and [DifferenceTooLong] only.  The slice
    also sets [prev_pts] to its [pts]; the full difference leaves it. *)
Theorem progress_reply_moves_cursor (now : Q) (nm : list Message) (ch : list Chat)
    (us : list User) (st : updates_State.t) (pre : list reply)
    (w w1 : world) (l1 : locals) :
  recover_updates User_id Chat_id now pre w = (w1, l1, None) →
  let items := items_of User_id Chat_id (updates_State.pts st) us ch nm in
  let after (prev : Z) (w2 : world) (l2 : locals) :=
    history w2
    = history w1 ++ (Put_nowait <$> items)
      ++ [Invoke (GetDifference.mk (updates_State.pts st) (updates_State.date st) 0 1000000)]
    ∧ updates_queue w2 = updates_queue w1 ++ items
    ∧ storage w2 = storage w1
    ∧ l2 = mk_locals (state l1) (updates_State.pts st) (updates_State.date st)
             (Some (updates_State.seq st))
             (message_updates_counter l1 + Z.of_nat (length nm))
             (other_updates_counter l1) prev in
  (∃ w2 l2,
     recover_updates User_id Chat_id now (pre ++ [Returned (Difference nm ch us st)]) w
     = (w2, l2, None)
     ∧ after (prev_pts l1) w2 l2)
  ∧ (updates_State.pts st ≠ prev_pts l1 →
     ∃ w2 l2,
       recover_updates User_id Chat_id now (pre ++ [Returned (DifferenceSlice nm ch us st)]) w
       = (w2, l2, None)
       ∧ after (updates_State.pts st) w2 l2).
Proof.
  rewrite !Recover_facts.recover_updates_enter. intros Hrun items after.
  apply Recover_facts.while_True_suspended in Hrun as (_ & w0 & -> & Hrest).
  rewrite !Hrest. subst after items. split.
  - cbn [while_True body]. rewrite Recover_facts.forward_eq. cbn.
    eexists _, _. split; [reflexivity|]. cbn. rewrite <- !app_assoc. by repeat split.
  - intros Hne. cbn [while_True body set_working prev_pts local_pts].
    destruct (Z.eqb_spec (prev_pts l1) (updates_State.pts st)) as [Heq|_]; [by destruct Hne|].
    rewrite Recover_facts.forward_eq. cbn.
    eexists _, _. split; [reflexivity|]. cbn. rewrite <- !app_assoc. by repeat split.
Qed.

Lemma while_True_tracks now (pre : list reply) (w w1 : world) l l1 :
  while_True User_id Chat_id now pre w l = (w1, l1, None) →
  local_pts l1 = default (local_pts l) (updates_State.pts <$> last (omap reply_state pre))
  ∧ local_date l1 = default (local_date l) (updates_State.date <$> last (omap reply_state pre))
  ∧ local_seq l1 = match last (omap reply_state pre) with
                   | Some st => Some (updates_State.seq st)
                   | None => local_seq l
                   end
  ∧ prev_pts l1 = default (prev_pts l) (updates_State.pts <$> last (omap slice_state pre)).
Proof.
  revert w l. induction pre as [|r pre IH]; intros w l; cbn [while_True].
  - by intros [= <- <-].
  - destruct r as [|[d s|p|nm ch us st|nm ch us st]]; cbn [body].
    + done.
    + done.
    + intros Hrun. apply IH in Hrun. exact Hrun.
    + rewrite Recover_facts.forward_eq. intros Hrun.
      apply IH in Hrun as (Hp & Hd & Hs & Hprev). cbn in Hp, Hd, Hs, Hprev.
      cbn [omap list_omap reply_state slice_state]. rewrite last_cons.
      destruct (last (omap reply_state pre)); by repeat split.
    + destruct (_ =? _); [done|]. rewrite Recover_facts.forward_eq. intros Hrun.
      apply IH in Hrun as (Hp & Hd & Hs & Hprev). cbn in Hp, Hd, Hs, Hprev.
      cbn [omap list_omap reply_state slice_state]. rewrite !last_cons.
      destruct (last (omap reply_state pre)), (last (omap slice_state pre));
        by repeat split.
Qed.

(** X21: while a run is waiting for a reply, its working cursor is the
    state of the last [Difference] or [DifferenceSlice] reply it got, or
    the cursor read from the store at the start when there was none;
    [DifferenceTooLong] replies never enter it.  [prev_pts] is the [pts]
    of the last slice, or 0.  The query the run is waiting on is the last
    call of the history and carries that working [pts] and [date]. *)
Theorem working_cursor_is_last_state (now : Q) (pre : list reply) (w w1 : world) (l1 : locals) :
  recover_updates User_id Chat_id now pre w = (w1, l1, None) →
  let st0 := (sqlite_storage.get_state now 0 (storage w)).1 in
  local_pts l1 = default (sqlite_storage.pts st0)
                   (updates_State.pts <$> last (omap reply_state pre))
  ∧ local_date l1 = default (sqlite_storage.date st0)
                      (updates_State.date <$> last (omap reply_state pre))
  ∧ local_seq l1 = match last (omap reply_state pre) with
                   | Some st => Some (updates_State.seq st)
                   | None => sqlite_storage.seq st0
                   end
  ∧ prev_pts l1 = default 0 (updates_State.pts <$> last (omap slice_state pre))
  ∧ last (history w1)
    = Some (Invoke (GetDifference.mk (local_pts l1) (local_date l1) 0 1000000)).
Proof.
  rewrite Recover_facts.recover_updates_enter. intros Hrun st0.
  destruct (while_True_tracks _ _ _ _ _ _ Hrun) as (Hp & Hd & Hs & Hprev).
  apply Recover_facts.while_True_suspended in Hrun as (_ & w0 & -> & _).
  repeat split; [done..|]. cbn. by rewrite last_snoc.
Qed.

(** *** Whole runs *)

(** X22: once a run has left the loop, the replies that would follow are
    of no account: the result is the same with any continuation of the
    script, so no query, write or event comes after a [break]. *)
Theorem finished_run_ignores_rest (now : Q) (pre rest : list reply) (w w1 : world)
    (l1 : locals) (b : break_at) :
  recover_updates User_id Chat_id now pre w = (w1, l1, Some b) →
  recover_updates User_id Chat_id now (pre ++ rest) w = (w1, l1, Some b).
Proof.
  rewrite !Recover_facts.recover_updates_enter.
  generalize (entry_locals (sqlite_storage.get_state now 0 (storage w)).1) as l.
  revert w. induction pre as [|r pre IH]; intros w l; cbn [while_True app]; [done|].
  destruct (body _ _ _ _ _ _) as [[w' l'] [|b']]; [apply IH | done].
Qed.

(** What one pass leaves alone, and what it adds to the queue. *)
Lemma body_frame now (r : reply) (w : world) l w1 l1 f :
  body User_id Chat_id now r w l = (w1, l1, f) →
  sqlite_storage.peers (storage w1) = sqlite_storage.peers (storage w)
  ∧ (∀ j, j ≠ sqlite_storage.id (state l) →
       sqlite_storage.state (storage w1) !! j = sqlite_storage.state (storage w) !! j)
  ∧ ∃ items, updates_queue w1 = updates_queue w ++ items
      ∧ message_updates_counter l1 = message_updates_counter l + Z.of_nat (length items)
      ∧ other_updates_counter l1 = other_updates_counter l
      ∧ Forall (λ it : queue_item Message User Chat,
                  UpdateNewMessage.pts_count it.1.1 = -1) items.
Proof.
  assert (Hitems : ∀ p us ch nm,
            Forall (λ it : queue_item Message User Chat,
                      UpdateNewMessage.pts_count it.1.1 = -1)
                   (items_of User_id Chat_id p us ch nm)).
  { intros. apply Forall_fmap, Forall_forall. by intros. }
  assert (Hlen : ∀ p us ch (nm : list Message),
            length (items_of User_id Chat_id p us ch nm) = length nm).
  { intros. unfold items_of. by rewrite length_fmap. }
  destruct r as [|[d s|p|nm ch us st|nm ch us st]]; cbn [body].
  - intros [= <- <- <-]. split; [done|]. split; [done|].
    exists []. cbn. rewrite app_nil_r. repeat split; [cbn; lia | constructor].
  - intros [= <- <- <-]. split; [done|]. split.
    { intros j Hj. cbn. by rewrite lookup_insert_ne. }
    exists []. cbn. rewrite app_nil_r. repeat split; [cbn; lia | constructor].
  - intros [= <- <- <-]. split; [done|]. split.
    { intros j Hj. cbn. by rewrite lookup_insert_ne. }
    exists []. cbn. rewrite app_nil_r. repeat split; [cbn; lia | constructor].
  - rewrite Recover_facts.forward_eq. intros [= <- <- <-]. split; [done|]. split; [done|].
    eexists. cbn. split; [reflexivity|]. rewrite Hlen. by repeat split.
  - destruct (_ =? _).
    + intros [= <- <- <-]. split; [done|]. split; [done|].
      exists []. cbn. rewrite app_nil_r. repeat split; [cbn; lia | constructor].
    + rewrite Recover_facts.forward_eq. intros [= <- <- <-]. split; [done|]. split; [done|].
      eexists. cbn. split; [reflexivity|]. rewrite Hlen. by repeat split.
Qed.

Lemma while_True_frame now (script : list reply) (w : world) l :
  let res := while_True User_id Chat_id now script w l in
  sqlite_storage.peers (storage res.1.1) = sqlite_storage.peers (storage w)
  ∧ (∀ j, j ≠ sqlite_storage.id (state l) →
       sqlite_storage.state (storage res.1.1) !! j = sqlite_storage.state (storage w) !! j)
  ∧ ∃ items, updates_queue res.1.1 = updates_queue w ++ items
      ∧ message_updates_counter res.1.2
        = message_updates_counter l + Z.of_nat (length items)
      ∧ other_updates_counter res.1.2 = other_updates_counter l
      ∧ Forall (λ it : queue_item Message User Chat,
                  UpdateNewMessage.pts_count it.1.1 = -1) items.
Proof.
  revert w l. induction script as [|r script IH]; intros w l; cbn [while_True].
  - cbn. split; [done|]. split; [done|]. exists []. rewrite app_nil_r.
    repeat split; [cbn; lia | constructor].
  - destruct (body _ _ _ _ _ _) as [[w1 l1] f] eqn:Hbody.
    pose proof (Recover_facts.body_effects _ _ _ _ _ _ _ _ _ Hbody) as [Hst _].
    apply body_frame in Hbody as (Hp1 & Hs1 & items1 & Hq1 & Hc1 & Ho1 & Hall1).
    cbn in Hp1, Hs1, Hq1. destruct f as [|b].
    + destruct (IH w1 l1) as (Hp2 & Hs2 & items2 & Hq2 & Hc2 & Ho2 & Hall2).
      rewrite Hst in Hs2. cbn zeta. split; [congruence|]. split.
      { intros j Hj. rewrite Hs2 by done. by apply Hs1. }
      exists (items1 ++ items2). rewrite Hq2, Hq1, <- app_assoc. split; [done|].
      rewrite Hc2, Hc1, length_app. split; [lia|]. split; [congruence|].
      by apply Forall_app.
    + cbn. split; [done|]. split; [done|]. by exists items1.
Qed.

(** X23: a run of [recover_updates] writes to the cursor of scope 0 and
    to nothing else in the database: every peer row and the cursor of
    every other scope are as they were before the run, for every script
    of replies. *)
Theorem recover_updates_touches_scope_0_only (now : Q) (script : list reply) (w : world) :
  let w' := (recover_updates User_id Chat_id now script w).1.1 in
  sqlite_storage.peers (storage w') = sqlite_storage.peers (storage w)
  ∧ ∀ j later, j ≠ 0 →
      (sqlite_storage.get_state later j (storage w')).1
      = (sqlite_storage.get_state later j (storage w)).1.
Proof.
  rewrite Recover_facts.recover_updates_enter.
  destruct (while_True_frame now script w
              (entry_locals (sqlite_storage.get_state now 0 (storage w)).1))
    as (Hp & Hs & _).
  cbn [entry_locals state] in Hs. rewrite Recover_facts.get_state_id in Hs.
  intros w'. subst w'. split; [done|].
  intros j later Hj. unfold sqlite_storage.get_state. rewrite Hs by done.
  by destruct (_ !! _).
Qed.

(** X24: a run only appends to the dispatcher queue.  The events it adds
    all carry [pts_count = -1], [message_updates_counter] ends as their
    number, and [other_updates_counter] stays 0. *)
Theorem recover_updates_counts_its_events (now : Q) (script : list reply) (w : world) :
  let res := recover_updates User_id Chat_id now script w in
  ∃ items, updates_queue res.1.1 = updates_queue w ++ items
    ∧ message_updates_counter res.1.2 = Z.of_nat (length items)
    ∧ other_updates_counter res.1.2 = 0
    ∧ Forall (λ it : queue_item Message User Chat,
                UpdateNewMessage.pts_count it.1.1 = -1) items.
Proof.
  rewrite Recover_facts.recover_updates_enter.
  destruct (while_True_frame now script w
              (entry_locals (sqlite_storage.get_state now 0 (storage w)).1))
    as (_ & _ & items & Hq & Hc & Ho & Hall).
  exists items. by repeat split.
Qed.

Lemma while_True_too_long now (ps : list Z) (w : world) l :
  ∃ w' : world,
    while_True User_id Chat_id now (too_long_replies ps) w l = (w', l, None)
    ∧ history w'
      = history w
        ++ concat (too_long_calls (sqlite_storage.id (state l)) (local_pts l)
                     (local_date l) (local_seq l) <$> ps)
        ++ [Invoke (query l)]
    ∧ updates_queue w' = updates_queue w
    ∧ match last ps with
      | Some p => sqlite_storage.state (storage w') !! sqlite_storage.id (state l)
                  = Some (sqlite_storage.mk_state_row p (local_date l) None (local_seq l))
      | None => storage w' = storage w
      end.
Proof.
  revert w. induction ps as [|p ps IH]; intros w.
  - eexists. split; [reflexivity|]. by repeat split.
  - cbn [too_long_replies fmap list_fmap]. rewrite Recover_facts.too_long_pass.
    destruct (IH (storage_update_state now (sqlite_storage.id (state l)) p
                    (Some (local_date l)) (local_seq l) (invoke (query l) w)))
      as (w' & Hrun & Hh & Hq & Hsto).
    exists w'. split; [exact Hrun|]. split.
    { rewrite Hh. cbn. by rewrite <- !app_assoc. }
    split; [by rewrite Hq|].
    rewrite last_cons. destruct (last ps); [done|].
    rewrite Hsto. apply (Storage_facts.lookup_update_state now).
Qed.

(** X25: against a server that answers [DifferenceTooLong] every time the
    run never leaves the loop.  However many such replies come, the
    engine is waiting on one more query, every query it sent is the query
    of the cursor it started with, the queue is untouched, and the store
    holds the [pts] of the latest reply next to the starting date and
    seq. *)
Theorem too_long_replies_never_end (now : Q) (ps : list Z) (w : world) :
  let st0 := (sqlite_storage.get_state now 0 (storage w)).1 in
  let q0 := GetDifference.mk (sqlite_storage.pts st0) (sqlite_storage.date st0) 0 1000000 in
  ∃ w' : world,
    recover_updates User_id Chat_id now (too_long_replies ps) w
    = (w', entry_locals st0, None)
    ∧ history w'
      = history w
        ++ concat (too_long_calls 0 (sqlite_storage.pts st0) (sqlite_storage.date st0)
                     (sqlite_storage.seq st0) <$> ps)
        ++ [Invoke q0]
    ∧ updates_queue w' = updates_queue w
    ∧ match last ps with
      | Some p => sqlite_storage.state (storage w') !! 0
                  = Some (sqlite_storage.mk_state_row p (sqlite_storage.date st0) None
                            (sqlite_storage.seq st0))
      | None => storage w' = storage w
      end.
Proof.
  intros st0 q0. rewrite Recover_facts.recover_updates_enter. fold st0.
  destruct (while_True_too_long now ps w (entry_locals st0)) as (w' & Hrun & Hh & Hq & Hsto).
  cbn [entry_locals state local_pts local_date local_seq] in Hh, Hsto.
  assert (Hid : sqlite_storage.id st0 = 0) by apply Recover_facts.get_state_id.
  rewrite Hid in Hh, Hsto.
  exists w'. by repeat split.
Qed.

End with_objects.

End Run_facts.

(** ** The further samples, evaluated *)
Module More_sample_facts.

Import sqlite_storage SQLiteStorage raw Recover Script Samples More_samples.

Lemma update_state_last_write_wins_witness :
  get_state noon 5 (update_state noon 0 7 None None (Some 1) cursors)
  = ((get_state noon 5 cursors).1, update_state noon 0 7 None None (Some 1) cursors).
Proof.
  apply (Cursor_facts.update_state_last_write_wins noon noon noon 0 7 7
           None None None None None (Some 1) cursors).
  discriminate.
Defined.

Lemma replaced_username_resolves_witness :
  get_peer_by_username offset_channel_id noon "frank" (replace_into_peers noon frank directory)
  = get_input_peer offset_channel_id 20 777 "user".
Proof.
  refine (proj2 (proj2 (Directory_facts.replaced_username_resolves offset_channel_id
                          noon noon frank "frank" directory eq_refl _))).
  intros j r _ Hj.
  refine (bool_decide_unpack
            (map_Forall (λ _ r, username r ≠ Some "frank") (peers directory)) _ j r Hj).
  vm_compute. exact I.
Defined.

Lemma replaced_row_loses_username_witness :
  get_peer_by_username offset_channel_id noon "bob" (replace_into_peers noon bob_unnamed directory)
  = Raise (KeyError_Username_not_found "bob").
Proof.
  apply (Directory_facts.replaced_row_loses_username offset_channel_id noon noon
           bob_unnamed "bob" directory).
  - discriminate.
  - intros j r Hne Hj.
    refine (bool_decide_unpack
              (map_Forall (λ j r, j ≠ 12 → username r ≠ Some "bob") (peers directory))
              _ j r Hj Hne).
    vm_compute. exact I.
Defined.

Lemma get_peer_by_phone_number_found_witness :
  get_peer_by_phone_number offset_channel_id "000" directory
  = Fail (KeyError_Phone_number_not_found "000")
  ∧ ∃ i r, peers directory !! i = Some r ∧ phone_number r = Some "391234"
      ∧ get_peer_by_phone_number offset_channel_id "391234" directory
        = lift (get_input_peer offset_channel_id i (access_hash r) (type r))
      ∧ get_peer_by_phone_number offset_channel_id "391234" directory
        ≠ Fail (KeyError_Phone_number_not_found "391234").
Proof.
  split.
  - apply (Directory_facts.get_peer_by_phone_number_found offset_channel_id "000" directory).
    apply (bool_decide_unpack
             (map_Forall (λ _ r, phone_number r ≠ Some "000") (peers directory))).
    vm_compute. exact I.
  - apply (proj2 (Directory_facts.get_peer_by_phone_number_found
                    offset_channel_id "391234" directory)
             12 (mk_peer_row 333 "group" (Some "bob") (Some "391234") 1699967600));
      reflexivity.
Defined.

Lemma exception_ends_run_witness :
  let res1 := recover_updates (λ x, x) (λ x, x) noon full_10 start in
  ∃ w2,
    recover_updates (λ x, x) (λ x, x) noon (full_10 ++ Raised :: too_long_then_empty) start
    = (w2, res1.1.2, Some break_exception)
    ∧ history w2 = history res1.1.1 ++ [Log_exception]
    ∧ storage w2 = storage res1.1.1
    ∧ updates_queue w2 = updates_queue res1.1.1.
Proof.
  intros res1.
  apply (Run_facts.exception_ends_run (λ x, x) (λ x, x) noon full_10 too_long_then_empty
           start res1.1.1 res1.1.2).
  reflexivity.
Defined.

Lemma empty_ends_run_witness :
  let res1 := recover_updates (λ x, x) (λ x, x) noon full_10 start in
  ∃ w2,
    recover_updates (λ x, x) (λ x, x) noon
      (full_10 ++ Returned (DifferenceEmpty 99 3) :: too_long_then_empty) start
    = (w2, res1.1.2, Some break_DifferenceEmpty)
    ∧ history w2 = history res1.1.1 ++ [Update_state 0 10 (Some 99) None (Some 3)]
    ∧ updates_queue w2 = updates_queue res1.1.1
    ∧ (get_state noon 0 (storage w2)).1 = mkState 0 10 99 None (Some 3).
Proof.
  intros res1.
  apply (Run_facts.empty_ends_run (λ x, x) (λ x, x) noon noon 99 3 full_10
           too_long_then_empty start res1.1.1 res1.1.2).
  reflexivity.
Defined.

Lemma stale_slice_ends_run_witness :
  let res1 := recover_updates (λ x, x) (λ x, x) noon slice_5 start in
  recover_updates (λ x, x) (λ x, x) noon
    (slice_5 ++ Returned (DifferenceSlice [3; 4] [] [] (updates_State.mk 5 0 1700000300 9 0))
             :: full_10) start
  = (res1.1.1, set_working 5 1700000300 (Some 9) res1.1.2, Some break_same_pts).
Proof.
  intros res1.
  apply (Run_facts.stale_slice_ends_run (λ x, x) (λ x, x) noon [3; 4] [] []
           (updates_State.mk 5 0 1700000300 9 0) slice_5 full_10 start res1.1.1 res1.1.2);
    reflexivity.
Defined.

Lemma progress_reply_moves_cursor_witness :
  let res1 := recover_updates (λ x, x) (λ x, x) noon slice_5 start in
  ∃ w2 l2,
    recover_updates (λ x, x) (λ x, x) noon
      (slice_5 ++ [Returned (DifferenceSlice [3; 4] [] [] state_8)]) start
    = (w2, l2, None)
    ∧ history w2
      = history res1.1.1
        ++ (Put_nowait <$> items_of (λ x, x) (λ x, x) 8 [] [] [3; 4])
        ++ [Invoke (GetDifference.mk 8 1700000200 0 1000000)]
    ∧ updates_queue w2
      = updates_queue res1.1.1 ++ items_of (λ x, x) (λ x, x) 8 [] [] [3; 4]
    ∧ storage w2 = storage res1.1.1
    ∧ l2 = mk_locals (state res1.1.2) 8 1700000200 (Some 6) 4 0 8.
Proof.
  intros res1.
  apply (proj2 (Run_facts.progress_reply_moves_cursor (λ x, x) (λ x, x) noon [3; 4] [] []
                  state_8 slice_5 start res1.1.1 res1.1.2 ltac:(reflexivity))).
  discriminate.
Defined.

Lemma working_cursor_is_last_state_witness :
  let res := recover_updates (λ x, x) (λ x, x) noon
               (slice_5 ++ Returned (DifferenceTooLong 500) :: full_10) start in
  local_pts res.1.2 = 10
  ∧ local_date res.1.2 = 1700000100
  ∧ local_seq res.1.2 = Some 4
  ∧ prev_pts res.1.2 = 5
  ∧ last (history res.1.1) = Some (Invoke (GetDifference.mk 10 1700000100 0 1000000)).
Proof.
  intros res.
  apply (Run_facts.working_cursor_is_last_state (λ x, x) (λ x, x) noon
           (slice_5 ++ Returned (DifferenceTooLong 500) :: full_10) start res.1.1 res.1.2).
  reflexivity.
Defined.

Lemma finished_run_ignores_rest_witness :
  recover_updates (λ x, x) (λ x, x) noon (too_long_then_empty ++ full_10) start
  = recover_updates (λ x, x) (λ x, x) noon too_long_then_empty start.
Proof.
  apply (Run_facts.finished_run_ignores_rest (λ x, x) (λ x, x) noon too_long_then_empty
           full_10 start
           (recover_updates (λ x, x) (λ x, x) noon too_long_then_empty start).1.1
           (recover_updates (λ x, x) (λ x, x) noon too_long_then_empty start).1.2
           break_DifferenceEmpty).
  reflexivity.
Defined.

Lemma recover_updates_touches_scope_0_only_witness :
  let w' := (recover_updates (λ x, x) (λ x, x) noon too_long_then_empty start).1.1 in
  (get_state noon 5 (storage w')).1 = mkState 5 9 1600000000 None None.
Proof.
  intros w'.
  apply (proj2 (Run_facts.recover_updates_touches_scope_0_only (λ x, x) (λ x, x) noon
                  too_long_then_empty start) 5 noon).
  discriminate.
Defined.

End More_sample_facts.
